(** * wrfpy: the WPS preprocessing steps (wps.py) and the cylc suite
    generator (wrfpy/wrfpy.py), embedded as Rocq functions.

    Python values the code inspects are an inductive type, exceptions are
    constructors of [exn], a call that may raise returns a [result], and
    code that changes the file system threads the part of it that it
    touches as explicit state. *)

From Stdlib Require Import ZArith String Ascii List Sorted DecimalString.
From stdpp Require Import gmap strings list fin_maps.

(** ** Python values, exceptions and the library calls the code makes *)

Module Py.

Inductive exn :=
| ValueError (msg : string)
| TypeError (msg : string)
| IOError (msg : string)
| OSError (msg : string)
| KeyError (key : string)
| IndexError
| UnboundLocalError (name : string).

Inductive result (A : Type) :=
| Ok (a : A)
| Raise (e : exn).
Arguments Ok {A} a.
Arguments Raise {A} e.

Global Instance result_ret : MRet result := λ A a, Ok a.
Global Instance result_bind : MBind result := λ A B k r,
  match r with
  | Ok a => k a
  | Raise e => Raise e
  end.

(** [l[i]] for an index that is never negative. *)
Definition index {A} (l : list A) (i : nat) : result A :=
  match l !! i with
  | Some a => Ok a
  | None => Raise IndexError
  end.

(** [d[key]] on a dictionary. *)
Definition getitem {A} (d : gmap string A) (key : string) : result A :=
  match d !! key with
  | Some a => Ok a
  | None => Raise (KeyError key)
  end.

(** A [datetime.datetime] instance, down to the second. *)
Record datetime := mk_datetime {
  year : nat; month : nat; day : nat;
  hour : nat; minute : nat; second : nat
}.

(** The values that reach the code from the namelist, the configuration
    and the callers.  A float is its mantissa and exponent. *)
#[warnings="-register-all"]
Inductive pyval :=
| PyNone
| PyBool (b : bool)
| PyInt (z : Z)
| PyFloat (m e : Z)
| PyStr (s : string)
| PyDatetime (dt : datetime)
| PyList (l : list pyval).

(** [isinstance(v, int)]: [bool] is a subclass of [int]. *)
Definition isinstance_int (v : pyval) : bool :=
  match v with
  | PyInt _ | PyBool _ => true
  | _ => false
  end.

(** [isinstance(v, datetime)] *)
Definition isinstance_datetime (v : pyval) : bool :=
  match v with
  | PyDatetime _ => true
  | _ => false
  end.

(** The number an [int] (or a [bool], [True] being 1) stands for. *)
Definition int_value (v : pyval) : Z :=
  match v with
  | PyInt z => z
  | PyBool true => 1
  | _ => 0
  end.

(** The truth value [if v:] tests. *)
Definition truthy (v : pyval) : bool :=
  match v with
  | PyNone => false
  | PyBool b => b
  | PyInt z => negb (z =? 0)%Z
  | PyFloat m _ => negb (m =? 0)%Z
  | PyStr s => negb (String.eqb s "")
  | PyDatetime _ => true
  | PyList l => match l with [] => false | _ => true end
  end.

(** [str(n)] for a number. *)
Definition str_nat (n : nat) : string := NilEmpty.string_of_uint (Nat.to_uint n).
Definition str_Z (z : Z) : string := NilEmpty.string_of_int (Z.to_int z).

(** [s.zfill(width)] for a string without sign. *)
Definition zfill (width : nat) (s : string) : string :=
  String.concat "" (replicate (width - String.length s) "0") +:+ s.

Definition newline : ascii := "010"%char.
Definition nl : string := String newline "".

(** [s.replace(old, new)] where [old] is one character. *)
Fixpoint replace_char (old : ascii) (new : string) (s : string) : string :=
  match s with
  | EmptyString => EmptyString
  | String c r =>
      if Ascii.eqb c old then new +:+ replace_char old new r
      else String c (replace_char old new r)
  end.

(** [s.split(sep)] where [sep] is one character: never empty, and one
    longer than the number of separators in [s]. *)
Fixpoint split_char (sep : ascii) (s : string) : list string :=
  match s with
  | EmptyString => [EmptyString]
  | String c r =>
      if Ascii.eqb c sep then EmptyString :: split_char sep r
      else match split_char sep r with
           | l :: ls => String c l :: ls
           | [] => [String c EmptyString]
           end
  end.

(** [sep.join(l)] *)
Fixpoint join (sep : string) (l : list string) : string :=
  match l with
  | [] => EmptyString
  | [s] => s
  | s :: r => s +:+ sep +:+ join sep r
  end.

(** [s.lstrip(' ')] *)
Fixpoint lstrip (s : string) : string :=
  match s with
  | String c r => if Ascii.eqb c " " then lstrip r else s
  | EmptyString => EmptyString
  end.

(** One conversion of [strftime]; the source uses [%Y %m %d %H %M %S]. *)
Definition directive (dt : datetime) (d : ascii) : string :=
  if Ascii.eqb d "Y" then str_nat (year dt)
  else if Ascii.eqb d "m" then zfill 2 (str_nat (month dt))
  else if Ascii.eqb d "d" then zfill 2 (str_nat (day dt))
  else if Ascii.eqb d "H" then zfill 2 (str_nat (hour dt))
  else if Ascii.eqb d "M" then zfill 2 (str_nat (minute dt))
  else if Ascii.eqb d "S" then zfill 2 (str_nat (second dt))
  else if Ascii.eqb d "%" then "%"
  else String "%" (String d EmptyString).

Fixpoint strftime_go (dt : datetime) (fmt : string) : string :=
  match fmt with
  | EmptyString => EmptyString
  | String c EmptyString => fmt
  | String c (String d rest as tail) =>
      if Ascii.eqb c "%" then directive dt d +:+ strftime_go dt rest
      else String c (strftime_go dt tail)
  end.

(** [datetime.strftime(dt, fmt)].  The source is Python 2, whose
    [strftime] refuses a year before 1900 with a [ValueError]. *)
Definition strftime (dt : datetime) (fmt : string) : result string :=
  if decide (year dt < 1900) then
    Raise (ValueError "year is before 1900")
  else Ok (strftime_go dt fmt).

(** [os.path.join(a, *ps)] on POSIX. *)
Definition ends_with_slash (s : string) : bool :=
  match String.rev s with
  | String c _ => Ascii.eqb c "/"
  | EmptyString => false
  end.

Definition path_join2 (a b : string) : string :=
  if String.prefix "/" b then b
  else if String.eqb a "" || ends_with_slash a then a +:+ b
  else a +:+ "/" +:+ b.

Definition os_path_join (a : string) (ps : list string) : string :=
  foldl path_join2 a ps.

(** [fnmatch.fnmatch(name, pat)] for patterns made of literal characters,
    [*] and [?] (the source's patterns have no bracket expression). *)
Fixpoint fnmatch (pat : string) : string → bool :=
  match pat with
  | EmptyString => λ name, String.eqb name ""
  | String p pat' =>
      if Ascii.eqb p "*" then
        fix star (name : string) : bool :=
          fnmatch pat' name
          || match name with
             | String _ name' => star name'
             | EmptyString => false
             end
      else if Ascii.eqb p "?" then
        λ name,
          match name with
          | String _ name' => fnmatch pat' name'
          | EmptyString => false
          end
      else
        λ name,
          match name with
          | String c name' => Ascii.eqb c p && fnmatch pat' name'
          | EmptyString => false
          end
  end.

(** [glob.has_magic] *)
Fixpoint has_magic (s : string) : bool :=
  match s with
  | EmptyString => false
  | String c r =>
      Ascii.eqb c "*" || Ascii.eqb c "?" || Ascii.eqb c "[" || has_magic r
  end.

Definition hidden (name : string) : bool := String.prefix "." name.

(** [glob.glob(os.path.join(dir, pattern))], as the names it finds in a
    directory whose entries are [names] (in [os.listdir] order) and whose
    own path has no pattern character: a pattern with no magic finds
    itself if it is there; otherwise the names that match, those that
    start with a dot being left out unless the pattern starts with one. *)
Definition glob (names : list string) (pattern : string) : list string :=
  if has_magic pattern then
    filter (λ name, fnmatch pattern name = true)
      (if hidden pattern then names
       else filter (λ name, hidden name = false) names)
  else if decide (pattern ∈ names) then [pattern] else [].

End Py.
Export Py.

(** ** wps.py *)

Module Wps.

(** *** [_get_ext_list] (lines 100-126) *)

(** [string.ascii_uppercase]. *)
Definition ascii_uppercase : string := "ABCDEFGHIJKLMNOPQRSTUVWXYZ".

Fixpoint chars (s : string) : list string :=
  match s with
  | EmptyString => []
  | String c r => String c EmptyString :: chars r
  end.

(** [ext = [ascii_uppercase[idx] for idx in range(0, len(ascii_uppercase))]] *)
Definition ext : list string := chars ascii_uppercase.

Definition too_many_files : string := "Too many files to link".

(** One pass through the body of the [for] loop: the name of the current
    counter is appended ([list_ext] is unbound, [None], before the first
    pass), then the three indices are advanced. *)
Definition ext_body (i1 i2 i3 : nat) (list_ext : option (list string))
  : result (nat * nat * nat * option (list string)) :=
  a ← index ext i3;
  b ← index ext i2;
  c ← index ext i1;
  let name := a +:+ b +:+ c in
  let list_ext :=
    match list_ext with
    | Some l => Some (l ++ [name])
    | None => Some [name]
    end in
  let i1 := i1 + 1 in
  if decide (String.length ascii_uppercase ≤ i1) then
    let i1 := 1 in
    let i2 := i2 + 1 in
    if decide (String.length ascii_uppercase ≤ i2) then
      let i2 := 1 in
      let i3 := i3 + 1 in
      if decide (String.length ascii_uppercase ≤ i3) then
        Raise (IOError too_many_files)
      else Ok (i1, i2, i3, list_ext)
    else Ok (i1, i2, i3, list_ext)
  else Ok (i1, i2, i3, list_ext).

(** [for filenum in range(num): ...] followed by [return list_ext].
    ([logger] is bound when the module runs as a script, line 224; logging
    leaves no trace in what is modelled.) *)
Fixpoint ext_loop (n : nat) (i1 i2 i3 : nat) (list_ext : option (list string))
  : result (list string) :=
  match n with
  | O =>
      match list_ext with
      | Some l => Ok l
      | None => Raise (UnboundLocalError "list_ext")
      end
  | S n' =>
      '(i1, i2, i3, list_ext) ← ext_body i1 i2 i3 list_ext;
      ext_loop n' i1 i2 i3 list_ext
  end.

Definition _get_ext_list (num : Z) : result (list string) :=
  ext_loop (Z.to_nat num) 0 0 0 None.

(** Python's [<] on [str]: code point by code point. *)
Definition str_lt (s t : string) : Prop := String.compare s t = Lt.

(** *** The namelist file and [_prepare_namelist] (lines 54-79) *)

(** An [f90nml] namelist: groups of named values. *)
Abbreviation namelist := (gmap string (gmap string pyval)).

(** What a path holds: a whole namelist, or the beginning of one that a
    write left behind when it failed. *)
Inductive file :=
| Complete (nml : namelist)
| Partial (nml : namelist).

Abbreviation files := (gmap string file).

(** How the operating system treats a write. *)
Inductive write_outcome :=
| Completes
| FailsPartway
| FailsAtOpen.

(** [f90nml.read(path)]; what is left of a failed write does not parse. *)
Definition f90nml_read (path : string) (fs : files) : result namelist :=
  match fs !! path with
  | Some (Complete nml) => Ok nml
  | Some (Partial _) => Raise (ValueError "truncated namelist")
  | None => Raise (IOError "No such file or directory")
  end.

(** Modelled from the spec: [utils.silentremove], which removes a file and
    takes a missing one for removed. *)
Definition silentremove {A} (path : string) (fs : gmap string A)
  : gmap string A :=
  delete path fs.

(** [nml.write(path)]: [f90nml] refuses to overwrite ([force] is off);
    otherwise it opens the path itself and writes into it. *)
Definition nml_write (o : write_outcome) (nml : namelist) (path : string)
    (fs : files) : files * result unit :=
  if decide (is_Some (fs !! path)) then
    (fs, Raise (IOError "File already exists"))
  else
    match o with
    | Completes => (<[path := Complete nml]> fs, Ok ())
    | FailsPartway => (<[path := Partial nml]> fs, Raise (IOError "write failed"))
    | FailsAtOpen => (fs, Raise (IOError "open failed"))
    end.

Definition date_format : string := "%Y-%m-%d_%H:%M:%S".

Definition domains_message : string :=
  "'domains_max_dom' namelist variable should be an integer>0".
Definition datetime_message : string :=
  "datestart and dateend must be an instance of datetime".

Definition namelist_path (work_dir : string) : string :=
  os_path_join work_dir ["wps"; "namelist.wps"].

(** [datetime.strftime(v, fmt)] on a value that passed the [isinstance]
    test. *)
Definition strftime_val (v : pyval) (fmt : string) : result string :=
  match v with
  | PyDatetime dt => strftime dt fmt
  | _ => Raise (TypeError "descriptor 'strftime' requires a 'datetime.datetime' object")
  end.

(** [wps_nml['share'][key] = v] *)
Definition set_share (key : string) (v : pyval) (nml : namelist)
  : result namelist :=
  share ← getitem nml "share";
  Ok (<["share" := <[key := v]> share]> nml).

(** Lines 59-74: the namelist as it is in memory before it is written. *)
Definition patched_namelist (work_dir : string) (datestart dateend : pyval)
    (fs : files) : result namelist :=
  wps_nml ← f90nml_read (namelist_path work_dir) fs;
  share ← getitem wps_nml "share";
  ndoms ← getitem share "max_dom";
  if negb (isinstance_int ndoms && (0 <? int_value ndoms)%Z) then
    Raise (ValueError domains_message)
  else if negb (forallb isinstance_datetime [datestart; dateend]) then
    Raise (TypeError datetime_message)
  else
    s ← strftime_val datestart date_format;
    wps_nml ← set_share "start_date"
      (PyList (replicate (Z.to_nat (int_value ndoms)) (PyStr s))) wps_nml;
    e ← strftime_val dateend date_format;
    set_share "end_date"
      (PyList (replicate (Z.to_nat (int_value ndoms)) (PyStr e))) wps_nml.

Definition _prepare_namelist (o : write_outcome) (work_dir : string)
    (datestart dateend : pyval) (fs : files) : files * result unit :=
  match patched_namelist work_dir datestart dateend fs with
  | Raise e => (fs, Raise e)
  | Ok wps_nml =>
      let fs := silentremove (namelist_path work_dir) fs in
      nml_write o wps_nml (namelist_path work_dir) fs
  end.

(** *** The work directory, [_clean_boundaries_wps] (lines 41-51) and
    [_link_boundary_files] (lines 81-97) *)

(** What a name in [wps_workdir] is. *)
Inductive entry :=
| RegularFile
| Symlink (target : string).

Abbreviation workdir := (gmap string entry).

(** [os.listdir(wps_workdir)] *)
Definition listdir (wd : workdir) : list string := (map_to_list wd).*1.

Definition clean_patterns : list string :=
  ["GRIBFILE.*"; "FILE:"; "PFILE:"; "PRES:"].

Definition _clean_boundaries_wps (wd : workdir) : workdir :=
  let files := (λ ext, glob (listdir wd) ext) <$> clean_patterns in
  let files_flat := concat files in
  foldl (λ wd filename, silentremove filename wd) wd files_flat.

(** [os.symlink(src, dst)], [dst] being a name in the work directory. *)
Definition os_symlink (src dst : string) (wd : workdir)
  : workdir * result unit :=
  match wd !! dst with
  | Some _ => (wd, Raise (OSError "File exists"))
  | None => (<[dst := Symlink src]> wd, Ok ())
  end.

Definition no_files_message : string :=
  "linking boundary files failed, no files found to link".

(** The list comprehension of lines 96-97, index by index. *)
Fixpoint link_loop (idxs : list nat) (filelist linkext : list string)
    (wd : workdir) : workdir * result unit :=
  match idxs with
  | [] => (wd, Ok ())
  | idx :: idxs' =>
      match index filelist idx, index linkext idx with
      | Ok src, Ok e =>
          match os_symlink src ("GRIBFILE." +:+ e) wd with
          | (wd', Ok _) => link_loop idxs' filelist linkext wd'
          | (wd', Raise err) => (wd', Raise err)
          end
      | Raise err, _ => (wd, Raise err)
      | _, Raise err => (wd, Raise err)
      end
  end.

(** Lines 86-88: the entries of [boundary_dir] are given in [os.listdir]
    order, each with what [os.path.isfile] says of it. *)
Definition isfile (boundary_dir : string) (listing : list (string * bool))
    (path : string) : bool :=
  existsb (λ x, String.eqb (os_path_join boundary_dir [x.1]) path && x.2)
    listing.

Definition boundary_filelist (boundary_dir : string)
    (listing : list (string * bool)) : list string :=
  let filelist :=
    (λ name, os_path_join boundary_dir [name]) <$> glob (listing.*1) "*" in
  filter (λ fl, isfile boundary_dir listing fl = true) filelist.

Definition _link_boundary_files (boundary_dir : string)
    (listing : list (string * bool)) (wd : workdir) : workdir * result unit :=
  let filelist := boundary_filelist boundary_dir listing in
  if decide (length filelist = 0) then
    (wd, Raise (IOError no_files_message))
  else
    match _get_ext_list (Z.of_nat (length filelist)) with
    | Raise err => (wd, Raise err)
    | Ok linkext => link_loop (seq 0 (length filelist)) filelist linkext wd
    end.

End Wps.

(** ** wrfpy/wrfpy.py *)

Module Wrfpy.

(** The double quote, and the three of them that delimit a cylc string. *)
Definition dq : string := String "034"%char EmptyString.
Definition q3 : string := dq +:+ dq +:+ dq.

(** What the generator reads from [self.config]: the validated start
    date, the cycle length, two directories and the three batch script
    settings of [options_slurm]. *)
Record config := mk_config {
  date_start : datetime;
  run_hours : Z;
  wrf_run_dir : string;
  work_dir : string;
  slurm_real_exe : pyval;
  slurm_wrf_exe : pyval;
  slurm_obsproc_exe : pyval
}.

(** *** [_scheduling] (lines 116-151) *)

Definition _scheduling (cfg : config) : string :=
  let start_hour := zfill 2 (str_nat (hour (date_start cfg))) in
  let incr_hour := str_Z (run_hours cfg) in
  "[scheduling]
  initial cycle point = {{ START }}
  final cycle time   = {{ STOP }}
  [[dependencies]]
    # Initial cycle point
    [[[R1/T" +:+ start_hour +:+ "]]]
      graph = " +:+ q3 +:+ "
        wrf_init => wrf_real => wrfda => wrf_run
        wrf_init => obsproc_init => obsproc_run
        obsproc_run => wrfda
      " +:+ q3 +:+ "
    # Repeat every " +:+ incr_hour +:+ " hours, starting " +:+ incr_hour +:+ " hours after initial cylce point
    [[[+PT" +:+ incr_hour +:+ "H/PT" +:+ incr_hour +:+ "H]]]
      graph = " +:+ q3 +:+ "
        wrf_run[-PT2H] => wrf_init => wrf_real => wrfda => copy_urb => wrf_run
        wrf_init => obsproc_init => obsproc_run
        obsproc_run => wrfda
      " +:+ q3 +:+ "

".

(** *** The runtime blocks of the executables (lines 200-315) *)

(** [open(v, 'r').read()] on the batch scripts, a map from path to text. *)
Definition open_read (v : pyval) (scripts : gmap string string)
  : result string :=
  match v with
  | PyStr p =>
      match scripts !! p with
      | Some text => Ok text
      | None => Raise (IOError "No such file or directory")
      end
  | _ => Raise (TypeError "coercing to Unicode: need string or buffer")
  end.

(** The six spaces before [{directives}] in the templates. *)
Definition indent : string := "      ".

(** The [if]/[else] each of the three functions has (lines 225-231,
    266-272, 301-308): the method and the directives. *)
Definition job_submission (v : pyval) (scripts : gmap string string)
  : result (string * string) :=
  if truthy v then
    text ← open_read v scripts;
    Ok ("slurm", replace_char newline (nl +:+ "      ") text)
  else Ok ("background", EmptyString).

(** The last two lines of each of the three templates, the second being
    the indentation and the [{directives}] field. *)
Definition directives_section (directives : string) : string :=
  "    [[[directives]]]
" +:+ indent +:+ directives +:+ nl.

Definition real_template (wrf_run_dir method directives : string) : string :=
  "
  [[wrf_real]]
    script = " +:+ q3 +:+ "
#!/usr/bin/env bash
if [ -n " +:+ dq +:+ "$SLURM_CPUS_PER_TASK" +:+ dq +:+ " ]; then
  omp_threads=$SLURM_CPUS_PER_TASK
else
  omp_threads=1
fi
export OMP_NUM_THREADS=$omp_threads
srun ./real.exe
" +:+ q3 +:+ "
    [[[environment]]]
      WORKDIR = " +:+ wrf_run_dir +:+ "
      CYLC_TASK_WORK_DIR = $WORKDIR
    [[[job submission]]]
      method = " +:+ method +:+ "
" +:+ directives_section directives.

Definition wrf_template (wrf_run_dir method directives : string) : string :=
  "
  [[wrf_run]]
    script = " +:+ q3 +:+ "
#!/usr/bin/env bash
if [ -n " +:+ dq +:+ "$SLURM_CPUS_PER_TASK" +:+ dq +:+ " ]; then
  omp_threads=$SLURM_CPUS_PER_TASK
else
  omp_threads=1
fi
export OMP_NUM_THREADS=$omp_threads
srun ./wrf.exe
" +:+ q3 +:+ "
    [[[environment]]]
      WORKDIR = " +:+ wrf_run_dir +:+ "
      CYLC_TASK_WORK_DIR = $WORKDIR
    [[[job submission]]]
      method = " +:+ method +:+ "
" +:+ directives_section directives.

Definition obsproc_template (obsproc_dir method directives : string) : string :=
  "
  [[obsproc_run]]
    script = " +:+ q3 +:+ "
#!/usr/bin/env bash
srun ./obsproc.exe
" +:+ q3 +:+ "
    [[[environment]]]
      WORKDIR = " +:+ obsproc_dir +:+ "
      CYLC_TASK_WORK_DIR = $WORKDIR
    [[[job submission]]]
      method = " +:+ method +:+ "
" +:+ directives_section directives.

Definition _runtime_real (cfg : config) (scripts : gmap string string)
  : result string :=
  '(method, directives) ← job_submission (slurm_real_exe cfg) scripts;
  Ok (real_template (wrf_run_dir cfg) method directives).

Definition _runtime_wrf (cfg : config) (scripts : gmap string string)
  : result string :=
  '(method, directives) ← job_submission (slurm_wrf_exe cfg) scripts;
  Ok (wrf_template (wrf_run_dir cfg) method directives).

Definition _runtime_obsproc (cfg : config) (scripts : gmap string string)
  : result string :=
  '(method, directives) ← job_submission (slurm_obsproc_exe cfg) scripts;
  Ok (obsproc_template (os_path_join (work_dir cfg) ["obsproc"])
        method directives).

(** *** How cylc reads the scheduling section *)

(** The section is read line by line: a line [[[[...]]]] names a
    recurrence, a line [graph = ] followed by three quotes opens its graph
    and a line of three quotes closes it. *)
Definition graph_open : string := "graph = " +:+ q3.

Fixpoint cycles_go (ls : list string) (header : string)
    (body : option (list string)) : list (string * list string) :=
  match ls with
  | [] => []
  | l :: ls' =>
      match body with
      | Some b =>
          if String.eqb (lstrip l) q3 then (header, b) :: cycles_go ls' header None
          else cycles_go ls' header (Some (b ++ [l]))
      | None =>
          if String.eqb (lstrip l) graph_open then cycles_go ls' header (Some [])
          else if String.prefix "[[[" (lstrip l) then cycles_go ls' (lstrip l) None
          else cycles_go ls' header None
      end
  end.

Definition cycles (text : string) : list (string * list string) :=
  cycles_go (split_char newline text) EmptyString None.

(** A graph line is a chain [a => b => c]: each task depends on the one
    before it. *)
Fixpoint chain_edges (nodes : list string) : list (string * string) :=
  match nodes with
  | a :: (b :: _) as rest => (a, b) :: chain_edges rest
  | _ => []
  end.

Definition line_nodes (l : string) : list string :=
  filter (λ w, w ≠ "=>") (String.words l).

Definition graph_edges (body : list string) : list (string * string) :=
  concat ((λ l, chain_edges (line_nodes l)) <$> body).

Definition graph_nodes (body : list string) : list string :=
  remove_dups (concat (line_nodes <$> body)).

End Wrfpy.

(** ** Auxiliary notions and concrete inputs the statements use *)

Module Cases.
Import Wps Wrfpy.

(** The counter the loop carries, as [(i1, i2, i3)]. *)
Abbreviation counter := (nat * nat * nat)%type.

Definition letter (i : nat) : ascii := ascii_of_nat (65 + i).

Definition name_of (c : counter) : string :=
  let '(i1, i2, i3) := c in
  String (letter i3) (String (letter i2) (String (letter i1) "")).

Definition valid (c : counter) : Prop :=
  let '(i1, i2, i3) := c in i1 < 26 ∧ i2 < 26 ∧ i3 < 26.

(** Passes of the loop body left before the most significant index
    leaves the alphabet. *)
Definition remaining (c : counter) : nat :=
  let '(i1, i2, i3) := c in (26 - i1) + 25 * (25 - i2) + 625 * (25 - i3).

Definition key (c : counter) : nat :=
  let '(i1, i2, i3) := c in i3 * 676 + i2 * 26 + i1.

Definition next (c : counter) : counter :=
  let '(i1, i2, i3) := c in
  if decide (26 ≤ i1 + 1) then
    if decide (26 ≤ i2 + 1) then (1, 1, i3 + 1) else (1, i2 + 1, i3)
  else (i1 + 1, i2, i3).

Fixpoint counters (n : nat) (c : counter) : list counter :=
  match n with
  | O => []
  | S n' => c :: counters n' (next c)
  end.

Definition snoc_ext (list_ext : option (list string)) (name : string)
  : list string :=
  match list_ext with
  | Some l => l ++ [name]
  | None => [name]
  end.

(** The namelist [_prepare_namelist] hands to the writer. *)
Definition with_dates (n : nat) (s e : string) (share : gmap string pyval)
    (nml : namelist) : namelist :=
  <["share" := <["end_date" := PyList (replicate n (PyStr e))]>
                 (<["start_date" := PyList (replicate n (PyStr s))]> share)]>
    nml.

(** A namelist file that holds only [share.max_dom], and the work directory
    it lies in, for the examples. *)
Definition example_nml (max_dom : pyval) : namelist :=
  {[ "share" := {[ "max_dom" := max_dom ]} ]}.
Definition example_files (max_dom : pyval) : files :=
  {[ namelist_path "/work" := Complete (example_nml max_dom) ]}.
Definition example_start : datetime := mk_datetime 2014 7 27 0 0 0.
Definition example_end : datetime := mk_datetime 2014 7 27 6 0 0.

(** The date as the specification writes it, YYYY-MM-DD_HH:MM:SS. *)
Definition date_string (dt : datetime) : string :=
  str_nat (year dt) +:+ "-" +:+ zfill 2 (str_nat (month dt)) +:+ "-"
    +:+ zfill 2 (str_nat (day dt)) +:+ "_"
    +:+ zfill 2 (str_nat (hour dt)) +:+ ":"
    +:+ zfill 2 (str_nat (minute dt)) +:+ ":"
    +:+ zfill 2 (str_nat (second dt)).

(** The values [datetime.datetime] accepts: a date of the calendar in the
    years 1 to 9999, and a time of the day. *)
Definition leap (y : nat) : bool :=
  (y mod 4 =? 0) && (negb (y mod 100 =? 0) || (y mod 400 =? 0)).

Definition days_in_month (y m : nat) : nat :=
  match m with
  | 2 => if leap y then 29 else 28
  | 4 | 6 | 9 | 11 => 30
  | _ => 31
  end.

Definition well_formed (dt : datetime) : Prop :=
  (1 ≤ Z.of_nat (year dt) ≤ 9999)%Z ∧ 1 ≤ month dt ≤ 12
  ∧ 1 ≤ day dt ≤ days_in_month (year dt) (month dt)
  ∧ hour dt < 24 ∧ minute dt < 60 ∧ second dt < 60.

(** The work directory after the files [fl] were linked under the
    extensions [exts], pair by pair. *)
Fixpoint links (fl exts : list string) (wd : workdir) : workdir :=
  match fl, exts with
  | f :: fl', e :: exts' =>
      links fl' exts' (<["GRIBFILE." +:+ e := Symlink f]> wd)
  | _, _ => wd
  end.

(** A work directory after a run: one linked boundary file, the three
    kinds of intermediate output, and the namelist. *)
Definition example_workdir : workdir :=
  list_to_map
    [("GRIBFILE.AAA", Symlink "/data/gfs/gfs.t00z.pgrb2f00");
     ("FILE:2014-07-27_00", RegularFile);
     ("PFILE:2014-07-27_00", RegularFile);
     ("PRES:2014-07-27_00", RegularFile);
     ("namelist.wps", RegularFile)].


(** A boundary directory: two files, a subdirectory between them. *)
Definition example_listing : list (string * bool) :=
  [("gfs.t00z.pgrb2f00", true); ("old", false); ("gfs.t00z.pgrb2f03", true)].

(** The lines of [a +:+ b] from the lines of [a] and of [b]: the last line
    of [a] runs on into the first of [b]. *)
Fixpoint glue (la lb : list string) : list string :=
  match la with
  | [] => lb
  | [x] =>
      match lb with
      | hb :: tb => (x +:+ hb) :: tb
      | [] => [x]
      end
  | x :: la' => x :: glue la' lb
  end.

(** No character of [s] is a newline. *)
Fixpoint one_line (s : string) : bool :=
  match s with
  | EmptyString => true
  | String c r => negb (Ascii.eqb c newline) && one_line r
  end.

(** The graph of the initial cycle as the specification gives it, with
    the task names of the suite. *)
Definition initial_edges : list (string * string) :=
  [("wrf_init", "wrf_real"); ("wrf_real", "wrfda"); ("wrfda", "wrf_run");
   ("wrf_init", "obsproc_init"); ("obsproc_init", "obsproc_run");
   ("obsproc_run", "wrfda")].

(** The one edge the specification adds for the repeating cycle. *)
Definition previous_run_edge : string * string :=
  ("wrf_run[-PT2H]", "wrf_init").

(** The graph of the repeating cycle as the template has it. *)
Definition repeating_edges : list (string * string) :=
  [("wrf_run[-PT2H]", "wrf_init");
   ("wrf_init", "wrf_real"); ("wrf_real", "wrfda");
   ("wrfda", "copy_urb"); ("copy_urb", "wrf_run");
   ("wrf_init", "obsproc_init"); ("obsproc_init", "obsproc_run");
   ("obsproc_run", "wrfda")].

Definition example_config : config :=
  mk_config example_start 6 "/work/run" "/work"
    (PyStr "/suite/slurm_real.sh") (PyStr "") PyNone.

Definition example_scripts : gmap string string :=
  {[ "/suite/slurm_real.sh" := "#SBATCH -n 24
#SBATCH -t 60" ]}.

End Cases.

(** ** wps.py: the stages, the tables and the pipeline *)

Module WpsStages.
Import Wps.

(** [self.config] as wps.py reads it: the sections it looks into, each
    there or not.  The values of [filesystem] and [slurm] are paths; those
    of [options_slurm] are whatever the JSON file holds. *)
Record wps_config := mk_wps_config {
  filesystem : option (gmap string string);
  options_slurm : option (gmap string pyval);
  slurm : option (gmap string string)
}.

(** [self.config[name]] *)
Definition section {A} (name : string) (s : option A) : result A :=
  match s with
  | Some a => Ok a
  | None => Raise (KeyError name)
  end.

(** [len(v)] *)
Definition py_len (v : pyval) : result nat :=
  match v with
  | PyStr s => Ok (String.length s)
  | PyList l => Ok (length l)
  | _ => Raise (TypeError "object has no len()")
  end.

(** *** [_link_vtable] (lines 129-138) *)

Definition _link_vtable (cfg : wps_config) (wd : workdir)
  : workdir * result unit :=
  let wd := silentremove "Vtable" wd in
  let vtable := "Vtable.GFS" in
  match (fsys ← section "filesystem" (filesystem cfg);
         getitem fsys "wps_dir") with
  | Raise err => (wd, Raise err)
  | Ok wps_dir =>
      let vtable_path :=
        os_path_join wps_dir ["ungrib"; "Variable_Tables"; vtable] in
      os_symlink vtable_path "Vtable" wd
  end.

(** *** [_run_geogrid], [_run_ungrib], [_run_metgrid] (lines 163-220) *)

(** What can come out of a stage besides the exceptions above. *)
Inductive stage_exn :=
| Exn (e : exn)
| NameError (name : string)
| CalledProcessError (returncode : Z) (cmd : string).

Inductive outcome :=
| Ran
| Failed (e : stage_exn).

(** Modelled from the spec: [utils.check_file_exists], which fails when
    the path is not there ([present] tells which paths are). *)
Definition check_file_exists (present : string → bool) (path : string)
  : result unit :=
  if present path then Ok () else Raise (IOError path).

(** [subprocess.check_call(cmd, cwd=self.wps_workdir, ...)]: the command is
    run ([exit_status] tells how it ends) and recorded; an exit status
    other than 0 is a [CalledProcessError].  The string is handed over as
    it is, no shell reads it; a command that cannot be started counts as
    one that ends with a status other than 0, since either way an
    exception reaches the [except] clause of the caller. *)
Definition check_call (exit_status : string → Z) (cmd : string)
    (log : list string) : list string * outcome :=
  if decide (exit_status cmd = 0%Z) then (log ++ [cmd], Ran)
  else (log ++ [cmd], Failed (CalledProcessError (exit_status cmd) cmd)).

(** [try: ... except CalledProcessError: ...]: the name after [except] is
    looked up when an exception arrives.  wps.py binds no such name (it
    imports [subprocess], not its members), so the lookup raises
    [NameError] in place of whatever arrived; the handler's body is never
    reached. *)
Definition except_CalledProcessError (r : list string * outcome)
  : list string * outcome :=
  match r with
  | (log, Failed _) => (log, Failed (NameError "CalledProcessError"))
  | (log, Ran) => (log, Ran)
  end.

(** Lines 167-174, 187-194, 207-214: the command of a stage. *)
Definition stage_command (stage : string) (cfg : wps_config)
    (present : string → bool) : result string :=
  opts ← section "options_slurm" (options_slurm cfg);
  v ← getitem opts ("slurm_" +:+ stage +:+ ".exe");
  n ← py_len v;
  if decide (n ≠ 0) then
    sl ← section "slurm" (slurm cfg);
    stage_slurm ← getitem sl ("slurm_" +:+ stage +:+ ".exe");
    _ ← check_file_exists present stage_slurm;
    Ok ("sbatch " +:+ stage_slurm)
  else
    fsys ← section "filesystem" (filesystem cfg);
    wps_dir ← getitem fsys "wps_dir";
    let command := os_path_join wps_dir [stage; stage +:+ ".exe"] in
    _ ← check_file_exists present command;
    Ok command.

(** The three functions differ in the name of the stage only. *)
Definition run_stage (stage : string) (cfg : wps_config)
    (present : string → bool) (exit_status : string → Z)
    (log : list string) : list string * outcome :=
  match stage_command stage cfg present with
  | Raise err => (log, Failed (Exn err))
  | Ok cmd => except_CalledProcessError (check_call exit_status cmd log)
  end.

Definition _run_geogrid := run_stage "geogrid".
Definition _run_ungrib := run_stage "ungrib".
Definition _run_metgrid := run_stage "metgrid".

(** *** [_link_tbl_files] (lines 141-160) *)

(** The subdirectories of the work directory, each with its names. *)
Abbreviation subdirs := (gmap string (gmap string entry)).

(** [os.path.isfile] of a name in a subdirectory: a link is followed, and
    [resolves] tells whether its target is a regular file. *)
Definition isfile_in (resolves : string → bool) (dirs : subdirs)
    (dir name : string) : bool :=
  match dirs !! dir with
  | Some names =>
      match names !! name with
      | Some RegularFile => true
      | Some (Symlink target) => resolves target
      | None => false
      end
  | None => false
  end.

(** Modelled from the spec: [utils._create_directory], which creates the
    directory unless it is there. *)
Definition _create_directory (dir : string) (dirs : subdirs) : subdirs :=
  match dirs !! dir with
  | Some _ => dirs
  | None => <[dir := ∅]> dirs
  end.

(** [os.symlink(src, os.path.join(wps_workdir, dir, name))] *)
Definition symlink_in (src dir name : string) (dirs : subdirs)
  : subdirs * result unit :=
  match dirs !! dir with
  | None => (dirs, Raise (OSError "No such file or directory"))
  | Some names =>
      match names !! name with
      | Some _ => (dirs, Raise (OSError "File exists"))
      | None => (<[dir := <[name := Symlink src]> names]> dirs, Ok ())
      end
  end.

(** One of the two blocks of [_link_tbl_files]. *)
Definition link_tbl (dir tbl : string) (cfg : wps_config)
    (resolves : string → bool) (dirs : subdirs) : subdirs * result unit :=
  if negb (isfile_in resolves dirs dir tbl) then
    match (fsys ← section "filesystem" (filesystem cfg);
           getitem fsys "wps_dir") with
    | Raise err => (dirs, Raise err)
    | Ok wps_dir =>
        let src := os_path_join wps_dir [dir; tbl +:+ ".ARW"] in
        let dirs := _create_directory dir dirs in
        symlink_in src dir tbl dirs
    end
  else (dirs, Ok ()).

Definition _link_tbl_files (cfg : wps_config) (resolves : string → bool)
    (dirs : subdirs) : subdirs * result unit :=
  match link_tbl "geogrid" "GEOGRID.TBL" cfg resolves dirs with
  | (dirs, Raise err) => (dirs, Raise err)
  | (dirs, Ok _) => link_tbl "metgrid" "METGRID.TBL" cfg resolves dirs
  end.

(** *** [__init__] (lines 23-38) *)

(** What the pipeline works on: the namelist file, the names in the work
    directory (no pattern and no link name reaches the namelist, which is
    kept apart), and the commands run so far.  Creating the work directory
    (line 28) leaves the names in it as they are. *)
Record world := mk_world {
  w_files : files;
  w_wd : workdir;
  w_log : list string
}.

(** What the pipeline is given from outside: how the write of the
    namelist goes, which paths exist, how each command ends. *)
Record environment := mk_environment {
  write : write_outcome;
  present : string → bool;
  exit_status : string → Z
}.

Definition lift (r : result unit) : outcome :=
  match r with
  | Ok _ => Ran
  | Raise err => Failed (Exn err)
  end.

(** One step after another; the first that fails ends the run. *)
Definition and_then (r : world * outcome) (step : world → world * outcome)
  : world * outcome :=
  match r with
  | (w, Ran) => step w
  | (w, Failed e) => (w, Failed e)
  end.

Definition wps_init (env : environment) (cfg : wps_config)
    (boundary_dir : string) (listing : list (string * bool))
    (datestart dateend : pyval) (w : world) : world * outcome :=
  match (fsys ← section "filesystem" (filesystem cfg);
         getitem fsys "work_dir") with
  | Raise err => (w, Failed (Exn err))
  | Ok work_dir =>
      let clean w :=
        (mk_world (w_files w) (_clean_boundaries_wps (w_wd w)) (w_log w), Ran) in
      let prepare w :=
        let '(fs, r) :=
          _prepare_namelist (write env) work_dir datestart dateend (w_files w) in
        (mk_world fs (w_wd w) (w_log w), lift r) in
      let link w :=
        let '(wd, r) := _link_boundary_files boundary_dir listing (w_wd w) in
        (mk_world (w_files w) wd (w_log w), lift r) in
      let run stage w :=
        let '(log, r) :=
          stage cfg (present env) (exit_status env) (w_log w) in
        (mk_world (w_files w) (w_wd w) log, r) in
      let vtable w :=
        let '(wd, r) := _link_vtable cfg (w_wd w) in
        (mk_world (w_files w) wd (w_log w), lift r) in
      and_then (and_then (and_then (and_then (and_then (and_then
        (clean w) prepare) link) (run _run_geogrid)) vtable)
        (run _run_ungrib)) (run _run_metgrid)
  end.

End WpsStages.

(** ** Concrete inputs for the stages and the pipeline *)

Module StageCases.
Import Wps Cases WpsStages.

(** A configuration that runs the executables themselves. *)
Definition local_config : wps_config :=
  mk_wps_config
    (Some {[ "work_dir" := "/work"; "wps_dir" := "/opt/WPS" ]})
    (Some {[ "slurm_geogrid.exe" := PyStr "";
             "slurm_ungrib.exe" := PyStr "";
             "slurm_metgrid.exe" := PyStr "" ]})
    None.

(** Every path exists, every command ends with status 0, or with status 1,
    and the write of the namelist completes. *)
Definition fair_weather : environment :=
  mk_environment Completes (λ _, true) (λ _, 0%Z).
Definition geogrid_fails : environment :=
  mk_environment Completes (λ _, true)
    (λ cmd, if String.eqb cmd "/opt/WPS/geogrid/geogrid.exe" then 1%Z else 0%Z).

(** The files and names a first run has left. *)
Definition example_world : world :=
  mk_world (example_files (PyInt 3)) example_workdir [].

(** A configuration that names the WPS installation, and the two
    subdirectories once their tables are linked from it. *)
Definition tables_config : wps_config :=
  mk_wps_config (Some {[ "wps_dir" := "/opt/WPS" ]}) None None.

Definition linked_tables : subdirs :=
  <["metgrid" := <["METGRID.TBL" := Symlink "/opt/WPS/metgrid/METGRID.TBL.ARW"]> ∅]>
    (<["geogrid" := <["GEOGRID.TBL" := Symlink "/opt/WPS/geogrid/GEOGRID.TBL.ARW"]> ∅]>
       ∅).

End StageCases.

(** ** wrfpy/wrfpy.py: the whole document *)

Module WrfpySuite.
Import Wrfpy.

(** *** [_header] (lines 88-114) *)


(** *** [_runtime] and the blocks without a choice (lines 154-197,
    318-329) *)

Definition _runtime_base : string :=
  "[runtime]
  [[root]] # suite defaults
    [[[job submission]]]
      method = background
".

Definition _runtime_init : string :=
  let wrf_init_command := "wrf_init.py $CYLC_TASK_CYCLE_POINT" in
  let obsproc_init_command := "wrfda_obsproc_init.py $CYLC_TASK_CYCLE_POINT" in
  "
  [[init]]
    script = " +:+ q3 +:+ "
" +:+ wrf_init_command +:+ "
" +:+ obsproc_init_command +:+ "
" +:+ q3 +:+ "
".

Definition _runtime_wrfda : string :=
  "
  [[wrfda]]
    script = wrfda_run.py $CYLC_TASK_CYCLE_POINT
".

(** The batch scripts are read from the text files [fs] of the machine. *)
Definition _runtime (cfg : config) (fs : gmap string string) : result string :=
  let base := _runtime_base in
  let init := _runtime_init in
  real ← _runtime_real cfg fs;
  wrf ← _runtime_wrf cfg fs;
  obsproc ← _runtime_obsproc cfg fs;
  Ok (base +:+ init +:+ real +:+ wrf +:+ obsproc +:+ _runtime_wrfda).

(** *** [_visualization] (lines 332-343) *)


(** *** [_write] (lines 346-356) *)



(** *** [_create_cylc_config] (lines 75-85) *)



(** *** How cylc reads the runtime section *)

(** A line [[[name]]] opens the block of a task; a line [script = ]
    followed by three quotes opens a script, which a line of three quotes
    closes, and whose lines are no part of the section's structure. *)
Definition script_open : string := "script = " +:+ q3.

Fixpoint until (c : ascii) (s : string) : string :=
  match s with
  | EmptyString => EmptyString
  | String x r => if Ascii.eqb x c then EmptyString else String x (until c r)
  end.

Definition block_name (l : string) : option string :=
  if String.prefix "[[" l && negb (String.prefix "[[[" l)
  then Some (until "]" (String.substring 2 (String.length l - 2) l))
  else None.

Fixpoint blocks_go (ls : list string) (in_script : bool) : list string :=
  match ls with
  | [] => []
  | l :: ls' =>
      if in_script then blocks_go ls' (negb (String.eqb (lstrip l) q3))
      else if String.eqb (lstrip l) script_open then blocks_go ls' true
      else
        match block_name (lstrip l) with
        | Some name => name :: blocks_go ls' false
        | None => blocks_go ls' false
        end
  end.

Definition blocks (text : string) : list string :=
  blocks_go (split_char newline text) false.

(** The task a node of a graph stands for: [wrf_run[-PT2H]] is [wrf_run]
    at another cycle point. *)
Definition task_of (node : string) : string := until "[" node.

End WrfpySuite.

(** ** Notions for the statements about the document *)

Module SuiteCases.
Import Wrfpy WrfpySuite Cases.

(** Whether the reader is inside a script after the lines [ls]. *)
Fixpoint script_state (ls : list string) (in_script : bool) : bool :=
  match ls with
  | [] => in_script
  | l :: ls' =>
      if in_script then script_state ls' (negb (String.eqb (lstrip l) q3))
      else script_state ls' (String.eqb (lstrip l) script_open)
  end.

(** A line of a batch script that neither opens a block nor a script. *)
Definition plain (l : string) : bool :=
  negb (String.eqb (lstrip l) script_open)
  && negb (String.prefix "[[" (lstrip l)).

(** The lines of a block of an executable up to its directives: all but
    the last two. *)
Definition head_lines (block : string) : list string :=
  let ls := split_char newline block in take (length ls - 2) ls.

(** A batch script setting the generator can render: nothing, an empty
    path, or the path of a script of plain lines. *)
Definition renders (fs : gmap string string) (v : pyval) : Prop :=
  truthy v = false
  ∨ ∃ path text, v = PyStr path ∧ fs !! path = Some text
                 ∧ Forall (λ l, plain l = true) (split_char newline text).


Definition settings (cfg : config) : list pyval :=
  [slurm_real_exe cfg; slurm_wrf_exe cfg; slurm_obsproc_exe cfg].

(** The tasks of a graph that have no block of their own. *)
Definition undefined_tasks (names body : list string) : list string :=
  filter (λ t, t ∉ names) (remove_dups (task_of <$> graph_nodes body)).

End SuiteCases.

(** ** wrfpy/wrfpy.py: the runtime blocks, from the configuration itself *)

Module WrfpyConfig.
Import Wrfpy.

(** [self.config] as the three functions read it: the two sections they
    look into, each there or not, with the keys each holds. *)
Record suite_config := mk_suite_config {
  options_slurm : option (gmap string pyval);
  filesystem : option (gmap string string)
}.

(** [self.config[name][key]] *)
Definition config_value {A} (name : string) (section : option (gmap string A))
    (key : string) : result A :=
  match section with
  | Some d => getitem d key
  | None => Raise (KeyError name)
  end.

(** The three functions with the look-ups they make, in the order they
    make them (lines 225-238, 266-279, 301-315): the setting of the batch
    script first, the directory after the script has been read.
    [Wrfpy._runtime_real] and its siblings are these functions once every
    look-up has given its value. *)
Definition _runtime_real (cfg : suite_config) (scripts : gmap string string)
  : result string :=
  v ← config_value "options_slurm" (options_slurm cfg) "slurm_real.exe";
  '(method, directives) ← job_submission v scripts;
  wrf_run_dir ← config_value "filesystem" (filesystem cfg) "wrf_run_dir";
  Ok (real_template wrf_run_dir method directives).

Definition _runtime_wrf (cfg : suite_config) (scripts : gmap string string)
  : result string :=
  v ← config_value "options_slurm" (options_slurm cfg) "slurm_wrf.exe";
  '(method, directives) ← job_submission v scripts;
  wrf_run_dir ← config_value "filesystem" (filesystem cfg) "wrf_run_dir";
  Ok (wrf_template wrf_run_dir method directives).

Definition _runtime_obsproc (cfg : suite_config) (scripts : gmap string string)
  : result string :=
  v ← config_value "options_slurm" (options_slurm cfg) "slurm_obsproc.exe";
  '(method, directives) ← job_submission v scripts;
  work_dir ← config_value "filesystem" (filesystem cfg) "work_dir";
  Ok (obsproc_template (os_path_join work_dir ["obsproc"]) method directives).

End WrfpyConfig.

(** ** Notions for the statements about the runtime blocks *)

Module BlockCases.
Import Wrfpy WrfpyConfig.

(** The lines of a rendered text. *)
Definition lines (text : string) : list string := split_char newline text.

(** The end of a block as the claim has it: the submission method, and
    the directives line by line. *)
Definition submission_lines (method : string) (directives : list string)
  : list string :=
  ["    [[[job submission]]]"; "      method = " +:+ method;
   "    [[[directives]]]"] ++ directives ++ [""].

(** The three executable tasks: the key of the batch script setting, the
    key of the directory, the line that opens the block, and the function
    that renders it. *)
Definition executable_tasks
  : list (string * string * string
          * (suite_config → gmap string string → result string)) :=
  [("slurm_real.exe", "wrf_run_dir", "  [[wrf_real]]", _runtime_real);
   ("slurm_wrf.exe", "wrf_run_dir", "  [[wrf_run]]", _runtime_wrf);
   ("slurm_obsproc.exe", "work_dir", "  [[obsproc_run]]", _runtime_obsproc)].

(** A configuration with a batch script for [real.exe], an empty path for
    [wrf.exe] and nothing for [obsproc.exe]; one without the key of
    [real.exe]; and one whose batch script is not there. *)
Definition example_suite_config : suite_config :=
  mk_suite_config
    (Some {[ "slurm_real.exe" := PyStr "/suite/slurm_real.sh";
             "slurm_wrf.exe" := PyStr "";
             "slurm_obsproc.exe" := PyNone ]})
    (Some {[ "wrf_run_dir" := "/work/run"; "work_dir" := "/work" ]}).

Definition no_key_config : suite_config :=
  mk_suite_config (Some ∅)
    (Some {[ "wrf_run_dir" := "/work/run"; "work_dir" := "/work" ]}).

Definition no_script_config : suite_config :=
  mk_suite_config
    (Some {[ "slurm_real.exe" := PyStr "/suite/missing.sh" ]})
    (Some {[ "wrf_run_dir" := "/work/run"; "work_dir" := "/work" ]}).

End BlockCases.

(** * Properties *)

(** ** The name allocator *)

Module AllocatorProps.
Import Wps Cases.

Lemma index_ext i : i < 26 → index ext i = Ok (String (letter i) "").
Proof.
  intros Hi. do 26 (destruct i as [|i]; [reflexivity|]). lia.
Qed.

Lemma ext_body_next i1 i2 i3 lo :
  valid (i1, i2, i3) → 1 < remaining (i1, i2, i3) →
  ext_body i1 i2 i3 lo
  = Ok (next (i1, i2, i3), Some (snoc_ext lo (name_of (i1, i2, i3)))).
Proof.
  intros (H1 & H2 & H3) Hrem. unfold ext_body.
  rewrite !index_ext by done. cbn [mbind result_bind].
  change (String.length ascii_uppercase) with 26.
  unfold next, remaining in *.
  assert (∀ lo' : option (list string),
    lo' = Some (snoc_ext lo (name_of (i1, i2, i3))) →
    (if decide (26 ≤ i1 + 1)
     then if decide (26 ≤ i2 + 1)
          then if decide (26 ≤ i3 + 1)
               then Raise (IOError too_many_files)
               else Ok (1, 1, i3 + 1, lo')
          else Ok (1, i2 + 1, i3, lo')
     else Ok (i1 + 1, i2, i3, lo'))
    = Ok (if decide (26 ≤ i1 + 1)
          then if decide (26 ≤ i2 + 1) then (1, 1, i3 + 1) else (1, i2 + 1, i3)
          else (i1 + 1, i2, i3), Some (snoc_ext lo (name_of (i1, i2, i3)))))
    as Hgen.
  { intros lo' ->. repeat case_decide; try reflexivity. lia. }
  apply Hgen. by destruct lo.
Qed.

Lemma ext_body_full i1 i2 i3 lo :
  valid (i1, i2, i3) → remaining (i1, i2, i3) ≤ 1 →
  ext_body i1 i2 i3 lo = Raise (IOError too_many_files).
Proof.
  intros (H1 & H2 & H3) Hrem. unfold ext_body.
  rewrite !index_ext by done. cbn [mbind result_bind].
  change (String.length ascii_uppercase) with 26.
  unfold remaining in Hrem.
  repeat case_decide; try reflexivity; lia.
Qed.

Lemma next_valid c :
  valid c → 1 < remaining c →
  valid (next c) ∧ remaining c = S (remaining (next c))
  ∧ key c < key (next c).
Proof.
  destruct c as [[i1 i2] i3]. unfold valid, remaining, next, key.
  intros (H1 & H2 & H3) Hrem. repeat case_decide; lia.
Qed.

Lemma remaining_pos c : valid c → 0 < remaining c.
Proof. destruct c as [[i1 i2] i3]. unfold valid, remaining. lia. Qed.

Lemma ext_loop_some n c l :
  valid c → n < remaining c →
  ext_loop n c.1.1 c.1.2 c.2 (Some l) = Ok (l ++ (name_of <$> counters n c)).
Proof.
  revert c l. induction n as [|n IH]; intros [[i1 i2] i3] l Hv Hn.
  - cbn. by rewrite app_nil_r.
  - cbn [ext_loop fst snd]. rewrite ext_body_next by (done || lia).
    cbn [mbind result_bind snoc_ext].
    destruct (next_valid (i1, i2, i3)) as (Hv' & Hr & _); [done | lia |].
    destruct (next (i1, i2, i3)) as [[j1 j2] j3] eqn:Hnext.
    rewrite (IH (j1, j2, j3)) by (done || lia).
    cbn [counters fmap list_fmap]. rewrite Hnext.
    by rewrite <- app_assoc.
Qed.

Lemma ext_loop_none n c :
  valid c → S n < remaining c →
  ext_loop (S n) c.1.1 c.1.2 c.2 None = Ok (name_of <$> counters (S n) c).
Proof.
  destruct c as [[i1 i2] i3]. intros Hv Hn.
  cbn [ext_loop fst snd]. rewrite ext_body_next by (done || lia).
  cbn [mbind result_bind snoc_ext].
  destruct (next_valid (i1, i2, i3)) as (Hv' & Hr & _); [done | lia |].
  destruct (next (i1, i2, i3)) as [[j1 j2] j3] eqn:Hnext.
  rewrite (ext_loop_some n (j1, j2, j3)) by (done || lia).
  cbn [counters fmap list_fmap]. by rewrite Hnext.
Qed.

Lemma ext_loop_full n c lo :
  valid c → remaining c ≤ n →
  ext_loop n c.1.1 c.1.2 c.2 lo = Raise (IOError too_many_files).
Proof.
  revert c lo. induction n as [|n IH]; intros [[i1 i2] i3] lo Hv Hn.
  - pose proof (remaining_pos _ Hv). lia.
  - cbn [ext_loop fst snd].
    destruct (decide (remaining (i1, i2, i3) ≤ 1)) as [Hlast|Hmore].
    + by rewrite ext_body_full.
    + rewrite ext_body_next by (done || lia).
      cbn [mbind result_bind].
      destruct (next_valid (i1, i2, i3)) as (Hv' & Hr & _); [done | lia |].
      destruct (next (i1, i2, i3)) as [[j1 j2] j3] eqn:Hnext.
      apply (IH (j1, j2, j3)); [done | lia].
Qed.

(** Names compare as their counters do. *)
Lemma letter_compare i j :
  i < 26 → j < 26 → Ascii.compare (letter i) (letter j) = Nat.compare i j.
Proof.
  intros Hi Hj. unfold Ascii.compare, letter, ascii_of_nat.
  rewrite !N_ascii_embedding by lia.
  rewrite <- Nat2N.inj_compare.
  destruct (Nat.compare_spec i j), (Nat.compare_spec (65 + i) (65 + j));
    done || lia.
Qed.

Lemma name_of_lt a b :
  valid a → valid b → key a < key b → str_lt (name_of a) (name_of b).
Proof.
  destruct a as [[a1 a2] a3], b as [[b1 b2] b3].
  intros (? & ? & ?) (? & ? & ?) Hkey. unfold key in Hkey.
  unfold str_lt, name_of. cbn [String.compare].
  rewrite !letter_compare by done.
  destruct (Nat.compare_spec a3 b3); [|done|lia].
  destruct (Nat.compare_spec a2 b2); [|done|lia].
  destruct (Nat.compare_spec a1 b1); [lia|done|lia].
Qed.

Lemma str_lt_irrefl s : ¬ str_lt s s.
Proof.
  unfold str_lt. intros H. pose proof (String.compare_antisym s s) as Ha.
  rewrite H in Ha. discriminate.
Qed.

Lemma counters_sorted n c :
  valid c → n ≤ remaining c →
  Forall (λ c', valid c' ∧ key c ≤ key c') (counters n c)
  ∧ StronglySorted str_lt (name_of <$> counters n c).
Proof.
  revert c. induction n as [|n IH]; intros c Hv Hn; cbn.
  { split; constructor. }
  destruct n as [|n].
  { cbn. split; repeat constructor; done || lia. }
  destruct (next_valid c) as (Hv' & Hr & Hk); [done | lia |].
  destruct (IH (next c)) as [Hall Hs]; [done | lia |].
  split.
  - constructor; [split; done || lia|].
    eapply Forall_impl; [exact Hall|]. intros c' [? ?]. split; done || lia.
  - constructor; [done|].
    apply Forall_fmap. eapply Forall_impl; [exact Hall|].
    intros c' [? ?]. apply name_of_lt; done || lia.
Qed.

Lemma StronglySorted_str_lt_NoDup l : StronglySorted str_lt l → NoDup l.
Proof.
  induction 1 as [|x l _ IH Hall]; constructor; [|done].
  intros Hin. rewrite Forall_forall in Hall.
  by apply (str_lt_irrefl x), Hall.
Qed.

Lemma counters_length n c : length (counters n c) = n.
Proof. revert c. induction n as [|n IH]; intros c; cbn; [done | by rewrite IH]. Qed.

Lemma counters_lookup n c i :
  i < n → counters n c !! i = Some (Nat.iter i next c).
Proof.
  revert c i. induction n as [|n IH]; intros c [|i] Hi; try lia; [done|].
  rewrite Nat.iter_succ_r. cbn [counters]. apply (IH (next c) i). lia.
Qed.

(** Below 16276 names, the list is the names of the first counters. *)
Lemma get_ext_list_names (n : Z) :
  (1 ≤ n < 16276)%Z →
  _get_ext_list n = Ok (name_of <$> counters (Z.to_nat n) (0, 0, 0)).
Proof.
  intros Hn. unfold _get_ext_list.
  destruct (Z.to_nat n) as [|k] eqn:Hk; [lia|].
  apply (ext_loop_none k (0, 0, 0)); cbn; lia.
Qed.

(** What the loop does for every count: below 16276 names it returns that
    many names, strictly increasing and so pairwise distinct; from 16276
    names on the third index leaves the alphabet and it raises. *)
Lemma get_ext_list_below (n : Z) :
  (1 ≤ n < 16276)%Z →
  ∃ l, _get_ext_list n = Ok l ∧ length l = Z.to_nat n
       ∧ StronglySorted str_lt l ∧ NoDup l.
Proof.
  intros Hn. eexists. split; [by apply get_ext_list_names|].
  destruct (counters_sorted (Z.to_nat n) (0, 0, 0)) as [_ Hs];
    [cbn; lia | cbn; lia |].
  split; [by rewrite length_fmap, counters_length|].
  split; [done | by apply StronglySorted_str_lt_NoDup].
Qed.

Lemma get_ext_list_above (n : Z) :
  (16276 ≤ n)%Z → _get_ext_list n = Raise (IOError too_many_files).
Proof.
  intros Hn. unfold _get_ext_list.
  apply (ext_loop_full _ (0, 0, 0)); cbn; lia.
Qed.

(** C1 (the code against the claim). The claim promises [n] names for every
    [n] below 16900; the loop resets the first and second index to 1, not
    0, when they leave the alphabet, so its third index leaves the alphabet
    on the 16276th pass: 16275 names are returned, 16276 names raise. *)
Theorem get_ext_list_16276_raises :
  (16276 < 16900)%Z
  ∧ _get_ext_list 16276 = Raise (IOError too_many_files)
  ∧ ∃ l, _get_ext_list 16275 = Ok l ∧ length l = Z.to_nat 16275.
Proof.
  split; [lia|]. split; [apply get_ext_list_above; lia|].
  destruct (get_ext_list_below 16275) as (l & Hl & Hlen & _); [lia|].
  exists l. split; [exact Hl | exact Hlen].
Qed.

(** C2 (the code against the claim). Whenever 27 names or more are
    returned, the first is AAA and the 27th, the first after the last index
    left the alphabet, is ABB; among the 27 names for [n = 27] the
    docstring's ABA does not occur; the last of 703 names is BDC. *)
Theorem get_ext_list_27th_is_ABB :
  (∀ n, (27 ≤ n < 16276)%Z →
     ∃ l, _get_ext_list n = Ok l
          ∧ l !! 0 = Some "AAA" ∧ l !! 25 = Some "AAZ"
          ∧ l !! 26 = Some "ABB")
  ∧ (∃ l, _get_ext_list 27 = Ok l ∧ length l = 27 ∧ "ABA" ∉ l)
  ∧ ∃ l, _get_ext_list 703 = Ok l ∧ length l = 703 ∧ l !! 702 = Some "BDC".
Proof.
  split; [|split].
  - intros n Hn. eexists. split; [apply get_ext_list_names; lia|].
    rewrite !list_lookup_fmap, !counters_lookup by lia.
    repeat split; vm_compute; reflexivity.
  - eexists. split; [vm_compute; reflexivity|]. split; [reflexivity|].
    intros Hin. apply list_elem_of_In in Hin. cbn in Hin.
    repeat (destruct Hin as [Heq|Hin]; [discriminate Heq|]). exact Hin.
  - eexists. split; [vm_compute; reflexivity|]. split; vm_compute; reflexivity.
Qed.

(** For 703 names: AAA first, ABB in the 27th place, BDC last. *)
Lemma get_ext_list_703 :
  ∃ l, _get_ext_list 703 = Ok l
       ∧ l !! 0 = Some "AAA" ∧ l !! 25 = Some "AAZ"
       ∧ l !! 26 = Some "ABB".
Proof. apply (proj1 get_ext_list_27th_is_ABB 703%Z). lia. Defined.

End AllocatorProps.

(** ** The namelist patcher *)

Module NamelistProps.
Import Wps Cases.

Section patch.
Context (work_dir : string) (fs : files) (nml : namelist).
Context (share : gmap string pyval) (ndoms : pyval).
Hypothesis Hfile : fs !! namelist_path work_dir = Some (Complete nml).
Hypothesis Hshare : nml !! "share" = Some share.
Hypothesis Hdom : share !! "max_dom" = Some ndoms.

Lemma patched_namelist_checks datestart dateend :
  patched_namelist work_dir datestart dateend fs
  = if negb (isinstance_int ndoms && (0 <? int_value ndoms)%Z) then
      Raise (ValueError domains_message)
    else if negb (forallb isinstance_datetime [datestart; dateend]) then
      Raise (TypeError datetime_message)
    else
      s ← strftime_val datestart date_format;
      wps_nml ← set_share "start_date"
        (PyList (replicate (Z.to_nat (int_value ndoms)) (PyStr s))) nml;
      e ← strftime_val dateend date_format;
      set_share "end_date"
        (PyList (replicate (Z.to_nat (int_value ndoms)) (PyStr e))) wps_nml.
Proof.
  unfold patched_namelist, f90nml_read, getitem.
  rewrite Hfile. cbn [mbind result_bind]. rewrite Hshare.
  cbn [mbind result_bind]. by rewrite Hdom.
Qed.

Lemma patched_namelist_dates start end_ s e :
  isinstance_int ndoms = true → (0 < int_value ndoms)%Z →
  strftime start date_format = Ok s → strftime end_ date_format = Ok e →
  patched_namelist work_dir (PyDatetime start) (PyDatetime end_) fs
  = Ok (with_dates (Z.to_nat (int_value ndoms)) s e share nml).
Proof.
  intros Hint Hpos Hs He. rewrite patched_namelist_checks.
  rewrite Hint. apply Z.ltb_lt in Hpos. rewrite Hpos.
  cbn [negb andb forallb isinstance_datetime strftime_val].
  rewrite Hs, He. unfold set_share, getitem.
  cbn [mbind result_bind]. rewrite Hshare.
  cbn [mbind result_bind]. rewrite lookup_insert_eq.
  cbn [mbind result_bind]. by rewrite insert_insert_eq.
Qed.

(** What the call does to the file, for each way the write can go. *)
Lemma prepare_namelist_run o start end_ s e :
  isinstance_int ndoms = true → (0 < int_value ndoms)%Z →
  strftime start date_format = Ok s → strftime end_ date_format = Ok e →
  _prepare_namelist o work_dir (PyDatetime start) (PyDatetime end_) fs
  = let new := with_dates (Z.to_nat (int_value ndoms)) s e share nml in
    match o with
    | Completes => (<[namelist_path work_dir := Complete new]> fs, Ok ())
    | FailsPartway =>
        (<[namelist_path work_dir := Partial new]> fs,
         Raise (IOError "write failed"))
    | FailsAtOpen =>
        (delete (namelist_path work_dir) fs, Raise (IOError "open failed"))
    end.
Proof.
  intros Hint Hpos Hs He. unfold _prepare_namelist.
  rewrite (patched_namelist_dates _ _ _ _ Hint Hpos Hs He).
  unfold nml_write, silentremove. rewrite lookup_delete_eq.
  case_decide as Hsome; [by destruct Hsome|].
  destruct o; cbn; by rewrite ?insert_delete_eq.
Qed.

Lemma with_dates_lookup n s e :
  ∃ share',
    with_dates n s e share nml !! "share" = Some share'
    ∧ share' !! "start_date" = Some (PyList (replicate n (PyStr s)))
    ∧ share' !! "end_date" = Some (PyList (replicate n (PyStr e)))
    ∧ (∀ k, k ≠ "start_date" → k ≠ "end_date" → share' !! k = share !! k)
    ∧ (∀ g, g ≠ "share" → with_dates n s e share nml !! g = nml !! g).
Proof.
  eexists. unfold with_dates. split; [apply lookup_insert_eq|].
  split; [by rewrite lookup_insert_ne, lookup_insert_eq|].
  split; [apply lookup_insert_eq|].
  split.
  - intros k H1 H2. by rewrite !lookup_insert_ne.
  - intros g Hg. by rewrite lookup_insert_ne.
Qed.
End patch.

Lemma append_empty (s : string) : s +:+ "" = s.
Proof.
  induction s as [|c s IH]; [done|].
  cbv [String.append]; fold String.append. by rewrite IH.
Qed.

(** From the year 1900 on, [strftime] with the format of the namelist gives
    the date as YYYY-MM-DD_HH:MM:SS. *)
Lemma strftime_date_string dt :
  1900 ≤ year dt → strftime dt date_format = Ok (date_string dt).
Proof.
  intros Hy. unfold strftime. rewrite decide_False by lia.
  f_equal. unfold date_format, date_string.
  cbn [strftime_go Ascii.eqb Bool.eqb directive].
  cbv [String.append]; fold String.append. by rewrite append_empty.
Qed.

Lemma strftime_before_1900 dt :
  year dt < 1900 →
  strftime dt date_format = Raise (ValueError "year is before 1900").
Proof. intros Hy. unfold strftime. by rewrite decide_True. Qed.

(** C3 as stated fails: 27 July 1899 is a well-formed datetime, and with
    it as start time the call raises and writes nothing, the [strftime] of
    the Python 2 library refusing a year before 1900. *)
Lemma prepare_namelist_before_1900 :
  ¬ (∀ work_dir (fs : files) (nml : namelist) (share : gmap string pyval)
       (d : Z) start end_,
       fs !! namelist_path work_dir = Some (Complete nml) →
       nml !! "share" = Some share →
       share !! "max_dom" = Some (PyInt d) →
       (1 ≤ d)%Z →
       well_formed start → well_formed end_ →
       ∃ nml' : namelist,
         _prepare_namelist Completes work_dir
           (PyDatetime start) (PyDatetime end_) fs
         = (<[namelist_path work_dir := Complete nml']> fs, Ok ())).
Proof.
  intros H.
  destruct (H "/work" (example_files (PyInt 3)) (example_nml (PyInt 3))
              {[ "max_dom" := PyInt 3 ]} 3%Z
              (mk_datetime 1899 7 27 0 0 0) example_end) as [nml' Hrun].
  - vm_compute. reflexivity.
  - vm_compute. reflexivity.
  - vm_compute. reflexivity.
  - lia.
  - unfold well_formed. cbn. lia.
  - unfold well_formed. cbn. lia.
  - vm_compute in Hrun. discriminate Hrun.
Qed.

(** C3, amended. When the namelist at the path has [share.max_dom] an
    integer [d >= 1] and both times are datetimes: if both years are 1900
    or later and the write completes, the call succeeds and the path holds
    the namelist whose [share.start_date] is the start time as
    YYYY-MM-DD_HH:MM:SS repeated [d] times and whose [share.end_date] is
    the end time in the same form repeated [d] times, everything else
    being as it was; if one of the years is before 1900, the call raises
    [ValueError] and every file is as it was. *)
Theorem prepare_namelist_sets_dates work_dir (fs : files) (nml : namelist)
    (share : gmap string pyval) (d : Z) start end_ :
  fs !! namelist_path work_dir = Some (Complete nml) →
  nml !! "share" = Some share →
  share !! "max_dom" = Some (PyInt d) →
  (1 ≤ d)%Z →
  (1900 ≤ year start → 1900 ≤ year end_ →
   ∃ (nml' : namelist) (share' : gmap string pyval),
     _prepare_namelist Completes work_dir
       (PyDatetime start) (PyDatetime end_) fs
     = (<[namelist_path work_dir := Complete nml']> fs, Ok ())
     ∧ nml' !! "share" = Some share'
     ∧ share' !! "start_date"
       = Some (PyList (replicate (Z.to_nat d) (PyStr (date_string start))))
     ∧ share' !! "end_date"
       = Some (PyList (replicate (Z.to_nat d) (PyStr (date_string end_))))
     ∧ (∀ k, k ≠ "start_date" → k ≠ "end_date" → share' !! k = share !! k)
     ∧ (∀ g, g ≠ "share" → nml' !! g = nml !! g))
  ∧ (year start < 1900 ∨ year end_ < 1900 →
     ∀ o, ∃ msg,
       _prepare_namelist o work_dir (PyDatetime start) (PyDatetime end_) fs
       = (fs, Raise (ValueError msg))).
Proof.
  intros Hfile Hshare Hdom Hd. split.
  - intros Hstart Hend.
    destruct (with_dates_lookup nml share (Z.to_nat d)
                (date_string start) (date_string end_))
      as (share' & H1 & H2 & H3 & H4 & H5).
    exists (with_dates (Z.to_nat d) (date_string start) (date_string end_)
              share nml), share'.
    split; [|done].
    by rewrite (prepare_namelist_run work_dir fs nml share (PyInt d)
                  Hfile Hshare Hdom Completes start end_
                  (date_string start) (date_string end_))
      by (by apply strftime_date_string || done || cbn; lia).
  - intros Hbefore o. unfold _prepare_namelist.
    rewrite (patched_namelist_checks work_dir fs nml share (PyInt d)
               Hfile Hshare Hdom).
    cbn [isinstance_int int_value].
    assert ((0 <? d)%Z = true) as -> by (apply Z.ltb_lt; lia).
    cbn [negb andb forallb isinstance_datetime strftime_val].
    destruct (decide (year start < 1900)) as [Hs|Hs].
    + rewrite (strftime_before_1900 start) by done. by eexists.
    + rewrite (strftime_date_string start) by lia.
      destruct Hbefore as [?|He]; [done|].
      rewrite (strftime_before_1900 end_) by done.
      unfold set_share, getitem. cbn [mbind result_bind]. rewrite Hshare.
      cbn [mbind result_bind]. by eexists.
Qed.

(** The example of the specification: three domains, 2014-07-27 00:00 to
    06:00. *)
Lemma prepare_namelist_sets_dates_example :
  ∃ (nml' : namelist) (share' : gmap string pyval),
    _prepare_namelist Completes "/work"
      (PyDatetime example_start) (PyDatetime example_end)
      (example_files (PyInt 3))
    = (<[namelist_path "/work" := Complete nml']> (example_files (PyInt 3)),
       Ok ())
    ∧ nml' !! "share" = Some share'
    ∧ share' !! "start_date"
      = Some (PyList (replicate (Z.to_nat 3) (PyStr "2014-07-27_00:00:00")))
    ∧ share' !! "end_date"
      = Some (PyList (replicate (Z.to_nat 3) (PyStr "2014-07-27_06:00:00")))
    ∧ (∀ k, k ≠ "start_date" → k ≠ "end_date"
            → share' !! k = ({[ "max_dom" := PyInt 3 ]} : gmap string pyval) !! k)
    ∧ (∀ g, g ≠ "share" → nml' !! g = example_nml (PyInt 3) !! g).
Proof.
  destruct (prepare_namelist_sets_dates "/work" (example_files (PyInt 3))
              (example_nml (PyInt 3)) {[ "max_dom" := PyInt 3 ]} 3%Z
              example_start example_end) as [Hok _].
  - vm_compute. reflexivity.
  - vm_compute. reflexivity.
  - vm_compute. reflexivity.
  - lia.
  - apply Hok; cbn; lia.
Defined.

(** C4 as stated fails: [True] is not an integer above 0 in the sense of
    the claim (it is no [PyInt]), and yet the call does not raise. *)
Lemma prepare_namelist_accepts_bool :
  ¬ (∀ o work_dir (fs : files) (nml : namelist) (share : gmap string pyval)
       v datestart dateend,
       fs !! namelist_path work_dir = Some (Complete nml) →
       nml !! "share" = Some share →
       share !! "max_dom" = Some v →
       (∀ z, v = PyInt z → (z < 1)%Z) →
       ∃ msg, (_prepare_namelist o work_dir datestart dateend fs).2
              = Raise (ValueError msg)).
Proof.
  intros H.
  destruct (H Completes "/work" (example_files (PyBool true))
              (example_nml (PyBool true)) {[ "max_dom" := PyBool true ]}
              (PyBool true) (PyDatetime example_start)
              (PyDatetime example_end)) as [msg Hmsg].
  - vm_compute. reflexivity.
  - vm_compute. reflexivity.
  - vm_compute. reflexivity.
  - intros z Hz. discriminate Hz.
  - vm_compute in Hmsg. discriminate Hmsg.
Qed.

(** C4, amended. With [share.max_dom] a value [v]: if [v] is no instance
    of [int] (a [bool] is one) or is not above 0, the call raises the
    [ValueError]; if [v] passes and one of the two times is no datetime, it
    raises the [TypeError]; either way the files are as they were. *)
Theorem prepare_namelist_rejects o work_dir (fs : files) (nml : namelist)
    (share : gmap string pyval) v datestart dateend :
  fs !! namelist_path work_dir = Some (Complete nml) →
  nml !! "share" = Some share →
  share !! "max_dom" = Some v →
  (isinstance_int v = false ∨ (int_value v < 1)%Z →
   _prepare_namelist o work_dir datestart dateend fs
   = (fs, Raise (ValueError domains_message)))
  ∧ (isinstance_int v = true → (1 ≤ int_value v)%Z →
     isinstance_datetime datestart = false
     ∨ isinstance_datetime dateend = false →
     _prepare_namelist o work_dir datestart dateend fs
     = (fs, Raise (TypeError datetime_message))).
Proof.
  intros Hfile Hshare Hdom. unfold _prepare_namelist.
  rewrite (patched_namelist_checks work_dir fs nml share v Hfile Hshare Hdom).
  split.
  - intros [Hint|Hlt].
    + by rewrite Hint.
    + assert ((0 <? int_value v)%Z = false) as -> by (apply Z.ltb_ge; lia).
      by rewrite andb_false_r.
  - intros Hint Hpos Hdt. rewrite Hint.
    assert ((0 <? int_value v)%Z = true) as -> by (apply Z.ltb_lt; lia).
    cbn [andb negb forallb].
    destruct Hdt as [-> | ->]; [done|]. by rewrite andb_false_r.
Qed.

(** [max_dom = 0] raises the [ValueError], and a plain string for the start
    raises the [TypeError]. *)
Lemma prepare_namelist_rejects_example :
  _prepare_namelist Completes "/work"
    (PyDatetime example_start) (PyDatetime example_end)
    (example_files (PyInt 0))
  = (example_files (PyInt 0), Raise (ValueError domains_message))
  ∧ _prepare_namelist Completes "/work"
      (PyStr "2014-07-27") (PyDatetime example_end) (example_files (PyInt 3))
    = (example_files (PyInt 3), Raise (TypeError datetime_message)).
Proof.
  split.
  - apply (prepare_namelist_rejects Completes "/work"
             (example_files (PyInt 0)) (example_nml (PyInt 0))
             {[ "max_dom" := PyInt 0 ]} (PyInt 0)).
    + vm_compute. reflexivity.
    + vm_compute. reflexivity.
    + vm_compute. reflexivity.
    + right. cbn. lia.
  - apply (prepare_namelist_rejects Completes "/work"
             (example_files (PyInt 3)) (example_nml (PyInt 3))
             {[ "max_dom" := PyInt 3 ]} (PyInt 3)).
    + vm_compute. reflexivity.
    + vm_compute. reflexivity.
    + vm_compute. reflexivity.
    + reflexivity.
    + cbn. lia.
    + left. reflexivity.
Defined.

(** C5 as stated fails: were the file replaced atomically, the path would
    hold a whole namelist, the old or the new one, however the write goes.
    A write that fails partway leaves a partial file there. *)
Lemma prepare_namelist_not_atomic :
  ¬ (∀ o work_dir (fs : files) (old : namelist) datestart dateend,
       fs !! namelist_path work_dir = Some (Complete old) →
       ∃ whole,
         (_prepare_namelist o work_dir datestart dateend fs).1
           !! namelist_path work_dir = Some (Complete whole)).
Proof.
  intros H.
  destruct (H FailsPartway "/work" (example_files (PyInt 3))
              (example_nml (PyInt 3)) (PyDatetime example_start)
              (PyDatetime example_end)) as [whole Hwhole].
  - vm_compute. reflexivity.
  - vm_compute in Hwhole. discriminate Hwhole.
Qed.

(** C5, amended. The call removes the file at the path and then writes the
    new namelist into that same path: if the write completes the path holds
    the new namelist; if it fails the error is raised and the old namelist
    is gone, the path holding a partial new file or nothing.  No other path
    changes. *)
Theorem prepare_namelist_writes_in_place o work_dir (fs : files)
    (nml : namelist) (share : gmap string pyval) (d : Z) start end_ s e :
  fs !! namelist_path work_dir = Some (Complete nml) →
  nml !! "share" = Some share →
  share !! "max_dom" = Some (PyInt d) →
  (1 ≤ d)%Z →
  strftime start date_format = Ok s →
  strftime end_ date_format = Ok e →
  let new := with_dates (Z.to_nat d) s e share nml in
  let r := _prepare_namelist o work_dir (PyDatetime start) (PyDatetime end_) fs in
  match o with
  | Completes =>
      r.2 = Ok () ∧ r.1 !! namelist_path work_dir = Some (Complete new)
  | FailsPartway =>
      (∃ msg, r.2 = Raise (IOError msg))
      ∧ r.1 !! namelist_path work_dir = Some (Partial new)
  | FailsAtOpen =>
      (∃ msg, r.2 = Raise (IOError msg))
      ∧ r.1 !! namelist_path work_dir = None
  end
  ∧ ∀ path, path ≠ namelist_path work_dir → r.1 !! path = fs !! path.
Proof.
  intros Hfile Hshare Hdom Hd Hs He new r. subst r.
  rewrite (prepare_namelist_run work_dir fs nml share (PyInt d)
             Hfile Hshare Hdom o start end_ s e)
    by (done || cbn; lia).
  cbn [int_value]. fold new.
  destruct o; cbn [fst snd].
  - split; [split; [done | apply lookup_insert_eq]|].
    intros path Hp. by rewrite lookup_insert_ne.
  - split; [split; [by eexists | apply lookup_insert_eq]|].
    intros path Hp. by rewrite lookup_insert_ne.
  - split; [split; [by eexists | apply lookup_delete_eq]|].
    intros path Hp. by rewrite lookup_delete_ne.
Qed.

Lemma prepare_namelist_writes_in_place_example :
  let new := with_dates (Z.to_nat 3) "2014-07-27_00:00:00"
               "2014-07-27_06:00:00" {[ "max_dom" := PyInt 3 ]}
               (example_nml (PyInt 3)) in
  let r := _prepare_namelist FailsPartway "/work"
             (PyDatetime example_start) (PyDatetime example_end)
             (example_files (PyInt 3)) in
  ((∃ msg, r.2 = Raise (IOError msg))
   ∧ r.1 !! namelist_path "/work" = Some (Partial new))
  ∧ ∀ path, path ≠ namelist_path "/work"
            → r.1 !! path = example_files (PyInt 3) !! path.
Proof.
  apply (prepare_namelist_writes_in_place FailsPartway "/work"
           (example_files (PyInt 3)) (example_nml (PyInt 3))
           {[ "max_dom" := PyInt 3 ]} 3 example_start example_end).
  - vm_compute. reflexivity.
  - vm_compute. reflexivity.
  - vm_compute. reflexivity.
  - lia.
  - vm_compute. reflexivity.
  - vm_compute. reflexivity.
Defined.

(** C10. [share.max_dom = True] passes the check on the domain count: the
    call succeeds and writes lists of one date each. *)
Theorem prepare_namelist_max_dom_True work_dir (fs : files) (nml : namelist)
    (share : gmap string pyval) start end_ s e :
  fs !! namelist_path work_dir = Some (Complete nml) →
  nml !! "share" = Some share →
  share !! "max_dom" = Some (PyBool true) →
  strftime start date_format = Ok s →
  strftime end_ date_format = Ok e →
  ∃ (nml' : namelist) (share' : gmap string pyval),
    _prepare_namelist Completes work_dir (PyDatetime start) (PyDatetime end_) fs
    = (<[namelist_path work_dir := Complete nml']> fs, Ok ())
    ∧ nml' !! "share" = Some share'
    ∧ share' !! "start_date" = Some (PyList [PyStr s])
    ∧ share' !! "end_date" = Some (PyList [PyStr e]).
Proof.
  intros Hfile Hshare Hdom Hs He.
  destruct (with_dates_lookup nml share 1 s e)
    as (share' & H1 & H2 & H3 & _).
  exists (with_dates 1 s e share nml), share'.
  split; [|done].
  by rewrite (prepare_namelist_run work_dir fs nml share (PyBool true)
                Hfile Hshare Hdom Completes start end_ s e).
Qed.

Lemma prepare_namelist_max_dom_True_example :
  ∃ (nml' : namelist) (share' : gmap string pyval),
    _prepare_namelist Completes "/work"
      (PyDatetime example_start) (PyDatetime example_end)
      (example_files (PyBool true))
    = (<[namelist_path "/work" := Complete nml']> (example_files (PyBool true)),
       Ok ())
    ∧ nml' !! "share" = Some share'
    ∧ share' !! "start_date" = Some (PyList [PyStr "2014-07-27_00:00:00"])
    ∧ share' !! "end_date" = Some (PyList [PyStr "2014-07-27_06:00:00"]).
Proof.
  apply (prepare_namelist_max_dom_True "/work" (example_files (PyBool true))
           (example_nml (PyBool true)) {[ "max_dom" := PyBool true ]}
           example_start example_end).
  - vm_compute. reflexivity.
  - vm_compute. reflexivity.
  - vm_compute. reflexivity.
  - vm_compute. reflexivity.
  - vm_compute. reflexivity.
Defined.

End NamelistProps.

(** ** The work directory: cleaning and linking *)

Module WorkdirProps.
Import Wps Cases.

Lemma foldl_silentremove (ks : list string) (wd : workdir) name :
  foldl (λ wd filename, silentremove filename wd) wd ks !! name
  = if decide (name ∈ ks) then None else wd !! name.
Proof.
  revert wd. induction ks as [|k ks IH]; intros wd; cbn [foldl].
  - case_decide as Hin; [by apply elem_of_nil in Hin | done].
  - rewrite IH. unfold silentremove.
    destruct (decide (name ∈ ks)) as [Hin|Hin].
    + rewrite decide_True; [done | by right].
    + destruct (decide (name = k)) as [->|Hne].
      * rewrite lookup_delete_eq. rewrite decide_True; [done | by left].
      * rewrite lookup_delete_ne by done. rewrite decide_False; [done|].
        intros [?|?]%elem_of_cons; done.
Qed.

Lemma elem_of_listdir (wd : workdir) name :
  name ∈ listdir wd ↔ is_Some (wd !! name).
Proof.
  unfold listdir. rewrite list_elem_of_fmap. split.
  - intros ([k x] & -> & Hin). apply elem_of_map_to_list in Hin. by eexists.
  - intros [x Hx]. exists (name, x). split; [done|].
    by apply elem_of_map_to_list.
Qed.

Lemma clean_lookup (wd : workdir) name :
  _clean_boundaries_wps wd !! name
  = if decide (name ∈ glob (listdir wd) "GRIBFILE.*"
               ++ glob (listdir wd) "FILE:" ++ glob (listdir wd) "PFILE:"
               ++ glob (listdir wd) "PRES:")
    then None else wd !! name.
Proof.
  unfold _clean_boundaries_wps. rewrite foldl_silentremove.
  cbn [clean_patterns fmap list_fmap concat]. by rewrite app_nil_r.
Qed.

Lemma glob_literal names pattern name :
  has_magic pattern = false → name ∈ glob names pattern → name = pattern.
Proof.
  unfold glob. intros ->. case_decide; intros Hin.
  - by apply list_elem_of_singleton in Hin.
  - by apply elem_of_nil in Hin.
Qed.

Lemma fnmatch_gribfile_not_hidden name :
  fnmatch "GRIBFILE.*" name = true → hidden name = false.
Proof.
  destruct name as [|c name]; [done|]. cbn. intros H.
  apply andb_true_iff in H as [Hc _]. apply Ascii.eqb_eq in Hc. by subst c.
Qed.

(** Whatever matches [GRIBFILE.*] is gone after cleaning. *)
Lemma clean_removes_gribfiles (wd : workdir) name :
  fnmatch "GRIBFILE.*" name = true → _clean_boundaries_wps wd !! name = None.
Proof.
  intros Hm. rewrite clean_lookup. case_decide as Hin; [done|].
  destruct (wd !! name) as [x|] eqn:Hx; [|done].
  exfalso. apply Hin. apply elem_of_app. left.
  unfold glob. cbn [has_magic Ascii.eqb orb]. 
  change (has_magic "GRIBFILE.*") with true.
  change (hidden "GRIBFILE.*") with false. cbn match.
  apply list_elem_of_filter. split; [done|].
  apply list_elem_of_filter. split; [by apply fnmatch_gribfile_not_hidden|].
  apply elem_of_listdir. by eexists.
Qed.

(** A name is kept unless it matches [GRIBFILE.*] or is one of the three
    literal names [FILE:], [PFILE:], [PRES:]. *)
Lemma clean_keeps (wd : workdir) name :
  fnmatch "GRIBFILE.*" name = false →
  name ≠ "FILE:" → name ≠ "PFILE:" → name ≠ "PRES:" →
  _clean_boundaries_wps wd !! name = wd !! name.
Proof.
  intros Hm H1 H2 H3. rewrite clean_lookup. case_decide as Hin; [|done].
  exfalso. rewrite !elem_of_app in Hin.
  destruct Hin as [Hin|[Hin|[Hin|Hin]]].
  - unfold glob in Hin. change (has_magic "GRIBFILE.*") with true in Hin.
    cbn match in Hin. apply list_elem_of_filter in Hin as [Hin _]. congruence.
  - by apply glob_literal in Hin.
  - by apply glob_literal in Hin.
  - by apply glob_literal in Hin.
Qed.

(** C7 (the code against the claim). On a work directory left by a run,
    cleaning removes the linked boundary file, and leaves every intermediate
    output: [FILE:], [PFILE:] and [PRES:] carry no wildcard among the
    patterns, unlike [GRIBFILE.*], so only files of exactly these names
    would go. *)
Theorem clean_leaves_intermediate_outputs :
  let wd := _clean_boundaries_wps example_workdir in
  wd !! "GRIBFILE.AAA" = None
  ∧ wd !! "FILE:2014-07-27_00" = Some RegularFile
  ∧ wd !! "PFILE:2014-07-27_00" = Some RegularFile
  ∧ wd !! "PRES:2014-07-27_00" = Some RegularFile.
Proof.
  cbv zeta. split; [by apply clean_removes_gribfiles|].
  rewrite !clean_keeps by done. by vm_compute.
Qed.

(** *** Linking *)


Lemma link_loop_seq fl exts (wd : workdir) i n :
  i + n ≤ length fl → i + n ≤ length exts → NoDup exts →
  (∀ j e, i ≤ j → exts !! j = Some e → wd !! ("GRIBFILE." +:+ e) = None) →
  link_loop (seq i n) fl exts wd
  = (links (take n (drop i fl)) (take n (drop i exts)) wd, Ok ()).
Proof.
  revert i wd. induction n as [|n IH]; intros i wd Hfl Hexts Hnd Hfresh.
  { by cbn. }
  cbn [seq link_loop].
  destruct (lookup_lt_is_Some_2 fl i) as [f Hf]; [lia|].
  destruct (lookup_lt_is_Some_2 exts i) as [e He]; [lia|].
  unfold index, os_symlink. rewrite Hf, He.
  rewrite (Hfresh i e) by done.
  rewrite (drop_S _ _ _ Hf), (drop_S _ _ _ He). cbn [take links].
  apply IH; [lia | lia | done |].
  intros j e' Hj He'.
  rewrite lookup_insert_ne; [apply (Hfresh j); [lia | done]|].
  intros Heq. apply (inj (String.app "GRIBFILE.")) in Heq. subst e'.
  assert (i = j) by (eapply NoDup_lookup; done). lia.
Qed.

Lemma links_lookup_other fl exts (wd : workdir) name :
  (∀ e, e ∈ exts → name ≠ "GRIBFILE." +:+ e) →
  links fl exts wd !! name = wd !! name.
Proof.
  revert exts wd. induction fl as [|f fl IH]; intros [|e exts] wd Hne;
    cbn [links]; try done.
  rewrite IH.
  - rewrite lookup_insert_ne; [done|]. intros Heq. eapply Hne; [by left|done].
  - intros e' He'. apply Hne. by right.
Qed.

Lemma links_lookup fl exts (wd : workdir) i f e :
  NoDup exts → fl !! i = Some f → exts !! i = Some e →
  links fl exts wd !! ("GRIBFILE." +:+ e) = Some (Symlink f).
Proof.
  revert exts wd i. induction fl as [|f0 fl IH];
    intros [|e0 exts] wd [|i] Hnd Hf He; simplify_eq/=.
  - rewrite links_lookup_other; [apply lookup_insert_eq|].
    intros e' He' Heq. apply (inj (String.app "GRIBFILE.")) in Heq. subst e'.
    by apply NoDup_cons in Hnd as [Hnotin _].
  - apply NoDup_cons in Hnd as [_ Hnd]. by eapply IH.
Qed.


(** The extension list, when there is one, is as long as asked and has no
    name twice. *)
Lemma get_ext_list_ok (n : nat) exts :
  0 < n → _get_ext_list (Z.of_nat n) = Ok exts →
  length exts = n ∧ NoDup exts.
Proof.
  intros Hn Hok.
  destruct (decide (Z.of_nat n < 16276)%Z) as [Hlt|Hge].
  - destruct (AllocatorProps.get_ext_list_below (Z.of_nat n))
      as (l & Hl & Hlen & _ & Hnd); [lia|].
    rewrite Hl in Hok. injection Hok as <-. split; [lia | done].
  - rewrite AllocatorProps.get_ext_list_above in Hok by lia. discriminate.
Qed.


End WorkdirProps.

(** ** The suite generator *)

Module SuiteProps.
Import Wrfpy Cases.

Ltac str_cons := cbv [String.append]; fold String.append.

Lemma app_assoc_str (a b c : string) : (a +:+ b) +:+ c = a +:+ (b +:+ c).
Proof.
  induction a as [|x a IH]; [done|]. str_cons. by rewrite IH.
Qed.

Lemma split_char_nonempty sep s : split_char sep s ≠ [].
Proof.
  destruct s as [|c r]; [done|]. cbn.
  destruct (Ascii.eqb c sep); [done|]. by destruct (split_char sep r).
Qed.

Lemma split_char_app sep a b :
  split_char sep (a +:+ b) = glue (split_char sep a) (split_char sep b).
Proof.
  induction a as [|c r IH]; str_cons.
  - cbn. pose proof (split_char_nonempty sep b).
    by destruct (split_char sep b).
  - cbn [split_char]. rewrite IH.
    pose proof (split_char_nonempty sep r) as Hr.
    pose proof (split_char_nonempty sep b) as Hb.
    destruct (Ascii.eqb c sep).
    + by destruct (split_char sep r).
    + destruct (split_char sep r) as [|l [|l' ls]]; [done| |done].
      by destruct (split_char sep b).
Qed.

Lemma split_char_one_line s :
  one_line s = true → split_char newline s = [s].
Proof.
  induction s as [|c r IH]; [done|]. cbn.
  intros [Hc Hr]%andb_true_iff. apply negb_true_iff in Hc.
  by rewrite Hc, IH.
Qed.

Lemma one_line_app a b : one_line (a +:+ b) = one_line a && one_line b.
Proof.
  induction a as [|c r IH]; [done|]. str_cons.
  cbn [one_line]. by rewrite IH, andb_assoc.
Qed.

Lemma one_line_uint d : one_line (NilEmpty.string_of_uint d) = true.
Proof. induction d; cbn; done. Qed.

Lemma one_line_str_Z z : one_line (str_Z z) = true.
Proof.
  unfold str_Z. destruct (Z.to_int z); cbn [NilEmpty.string_of_int one_line];
    [|change (Ascii.eqb "-" newline) with false; cbn [negb andb]];
    apply one_line_uint.
Qed.

Lemma one_line_zfill w s : one_line s = true → one_line (zfill w s) = true.
Proof.
  intros Hs. unfold zfill. rewrite one_line_app, Hs, andb_true_r.
  induction (w - String.length s) as [|k IH]; [done|].
  cbn [replicate String.concat].
  destruct (replicate k "0"); [done|].
  by rewrite !one_line_app, IH.
Qed.

(** The two recurrences of the scheduling section and their graphs, for
    every start hour and cycle length. *)
Lemma scheduling_cycles cfg :
  cycles (_scheduling cfg)
  = [("[[[R1/T" +:+ zfill 2 (str_nat (hour (date_start cfg))) +:+ "]]]",
      ["        wrf_init => wrf_real => wrfda => wrf_run";
       "        wrf_init => obsproc_init => obsproc_run";
       "        obsproc_run => wrfda"]);
     ("[[[+PT" +:+ str_Z (run_hours cfg) +:+ "H/PT"
        +:+ str_Z (run_hours cfg) +:+ "H]]]",
      ["        wrf_run[-PT2H] => wrf_init => wrf_real => wrfda => copy_urb => wrf_run";
       "        wrf_init => obsproc_init => obsproc_run";
       "        obsproc_run => wrfda"])].
Proof.
  unfold cycles, _scheduling.
  pose proof (split_char_one_line _
    (one_line_zfill 2 _ (one_line_uint (Nat.to_uint (hour (date_start cfg))))))
    as Hsh.
  pose proof (split_char_one_line _ (one_line_str_Z (run_hours cfg))) as Hih.
  change (NilEmpty.string_of_uint (Nat.to_uint (hour (date_start cfg))))
    with (str_nat (hour (date_start cfg))) in Hsh.
  generalize dependent (zfill 2 (str_nat (hour (date_start cfg)))).
  generalize dependent (str_Z (run_hours cfg)).
  intros ih Hih sh Hsh.
  rewrite !split_char_app, Hsh, Hih.
  vm_compute. reflexivity.
Qed.

(** C8 as stated fails: the edges of the repeating graph are not those of
    the initial graph with one edge more. *)
Lemma scheduling_repeating_differs :
  ¬ (∀ cfg, ∃ header1 header2 init rep,
       cycles (_scheduling cfg) = [(header1, init); (header2, rep)]
       ∧ ∀ edge, edge ∈ graph_edges rep
                 ↔ edge ∈ graph_edges init ∨ edge = previous_run_edge).
Proof.
  intros H.
  destruct (H example_config) as (h1 & h2 & init & rep & Hc & Hrep).
  rewrite scheduling_cycles in Hc. injection Hc as _ <- _ <-.
  destruct (Hrep ("wrfda", "copy_urb")) as [Hin _].
  destruct Hin as [Hin|Heq].
  - apply list_elem_of_In. vm_compute. tauto.
  - apply list_elem_of_In in Hin. vm_compute in Hin.
    repeat (destruct Hin as [Heq|Hin]; [discriminate Heq|]). exact Hin.
  - discriminate Heq.
Qed.

(** C8, amended. For every start hour and cycle length the scheduling
    section has two recurrences.  The graph of the first is the initial
    graph of the specification.  The graph of the second starts with the
    edge from [wrf_run] two hours earlier to [wrf_init] and then follows
    the initial graph, except that [wrfda => wrf_run] has become
    [wrfda => copy_urb => wrf_run]: one task and two edges more, one edge
    less. *)
Theorem scheduling_graphs cfg :
  ∃ init rep,
    cycles (_scheduling cfg)
    = [("[[[R1/T" +:+ zfill 2 (str_nat (hour (date_start cfg))) +:+ "]]]",
        init);
       ("[[[+PT" +:+ str_Z (run_hours cfg) +:+ "H/PT"
          +:+ str_Z (run_hours cfg) +:+ "H]]]", rep)]
    ∧ graph_edges init = initial_edges
    ∧ graph_edges rep
      = previous_run_edge
        :: (initial_edges ≫= λ edge,
              if decide (edge = ("wrfda", "wrf_run"))
              then [("wrfda", "copy_urb"); ("copy_urb", "wrf_run")]
              else [edge])
    ∧ "copy_urb" ∈ graph_nodes rep ∧ "copy_urb" ∉ graph_nodes init.
Proof.
  eexists _, _. split; [apply scheduling_cycles|].
  split; [vm_compute; reflexivity|]. split; [vm_compute; reflexivity|].
  split.
  - apply list_elem_of_In. vm_compute. tauto.
  - intros Hin. apply list_elem_of_In in Hin. vm_compute in Hin.
    repeat (destruct Hin as [Heq|Hin]; [discriminate Heq|]). exact Hin.
Qed.

(** *** The runtime blocks *)

Lemma replace_char_join sep new s :
  replace_char sep new s = join new (split_char sep s).
Proof.
  induction s as [|c r IH]; [done|]. cbn [replace_char split_char].
  pose proof (split_char_nonempty sep r) as Hr.
  destruct (Ascii.eqb c sep).
  - rewrite IH. by destruct (split_char sep r).
  - rewrite IH. destruct (split_char sep r) as [|l [|l' ls]]; done.
Qed.

Lemma join_indent ind ls :
  ls ≠ [] →
  ind +:+ join (nl +:+ ind) ls = join nl ((λ l, ind +:+ l) <$> ls).
Proof.
  induction ls as [|x [|y ys] IH]; intros Hne; [done|done|].
  change (join (nl +:+ ind) (x :: y :: ys))
    with (x +:+ (nl +:+ ind) +:+ join (nl +:+ ind) (y :: ys)).
  change (join nl ((λ l, ind +:+ l) <$> x :: y :: ys))
    with ((ind +:+ x) +:+ nl +:+ join nl ((λ l, ind +:+ l) <$> y :: ys)).
  rewrite <- IH by done. by rewrite !app_assoc_str.
Qed.

Lemma job_submission_background v scripts :
  truthy v = false → job_submission v scripts = Ok ("background", "").
Proof. unfold job_submission. by intros ->. Qed.

Lemma job_submission_slurm path text (scripts : gmap string string) :
  path ≠ "" → scripts !! path = Some text →
  job_submission (PyStr path) scripts
  = Ok ("slurm", replace_char newline (nl +:+ "      ") text).
Proof.
  intros Hne Htext. unfold job_submission, truthy, open_read.
  apply String.eqb_neq in Hne. by rewrite Hne, Htext.
Qed.

Lemma job_submission_method v scripts method directives :
  job_submission v scripts = Ok (method, directives) →
  method = if truthy v then "slurm" else "background".
Proof.
  unfold job_submission. destruct (truthy v); [|by intros [= <- _]].
  destruct (open_read v scripts); [|done]. by intros [= <- _].
Qed.

End SuiteProps.

(** ** More on the allocator *)

Module AllocatorMore.
Import Wps Cases AllocatorProps.

(** X1. Asked for no name (or for a negative number of names) the loop
    body never runs, [list_ext] is never bound, and the [return] raises
    [UnboundLocalError]: the function has no empty result. *)
Theorem get_ext_list_nothing (num : Z) :
  (num ≤ 0)%Z → _get_ext_list num = Raise (UnboundLocalError "list_ext").
Proof.
  intros Hn. unfold _get_ext_list.
  by replace (Z.to_nat num) with 0 by lia.
Qed.

Lemma get_ext_list_nothing_example :
  _get_ext_list 0 = Raise (UnboundLocalError "list_ext").
Proof. apply get_ext_list_nothing. lia. Defined.

Lemma counters_take m n c : m ≤ n → take m (counters n c) = counters m c.
Proof.
  revert n c. induction m as [|m IH]; intros [|n] c Hmn; try lia; try done.
  cbn. f_equal. apply IH. lia.
Qed.

(** X2. The names do not depend on how many are asked for: the list for
    [m] files is the beginning of the list for any larger [n], so linking
    more files never renames the earlier ones. *)
Theorem get_ext_list_prefix (m n : Z) :
  (1 ≤ m ≤ n)%Z → (n < 16276)%Z →
  ∃ lm ln, _get_ext_list m = Ok lm ∧ _get_ext_list n = Ok ln
           ∧ lm = take (Z.to_nat m) ln.
Proof.
  intros Hm Hn. eexists _, _.
  split; [apply get_ext_list_names; lia|].
  split; [apply get_ext_list_names; lia|].
  rewrite <- fmap_take, counters_take by lia. done.
Qed.

Lemma get_ext_list_prefix_example :
  ∃ lm ln, _get_ext_list 2 = Ok lm ∧ _get_ext_list 30 = Ok ln
           ∧ lm = take (Z.to_nat 2) ln.
Proof. apply get_ext_list_prefix; lia. Defined.

Lemma next_keeps_ones c :
  1 ≤ c.1.1 ∧ 1 ≤ c.1.2 → 1 ≤ (next c).1.1 ∧ 1 ≤ (next c).1.2.
Proof.
  destruct c as [[i1 i2] i3]. unfold next. cbn.
  repeat case_decide; cbn; lia.
Qed.

Lemma iter_next_ones i c :
  1 ≤ c.1.1 ∧ 1 ≤ c.1.2 →
  1 ≤ (Nat.iter i next c).1.1 ∧ 1 ≤ (Nat.iter i next c).1.2.
Proof.
  intros Hc. induction i as [|i IH]; [done|]. cbn. by apply next_keeps_ones.
Qed.

Lemma letter_A i : i < 26 → letter i = "A"%char → i = 0.
Proof.
  intros Hi Heq. do 26 (destruct i as [|i]; [done || discriminate Heq|]). lia.
Qed.

(** X3. Every name returned is three capital letters, and from the 27th
    name on neither its second nor its third letter is A: once the last
    index has left the alphabet, the loop never goes back to index 0. *)
Theorem get_ext_list_no_A_after_26 (n : Z) l i s :
  _get_ext_list n = Ok l → l !! i = Some s →
  ∃ i1 i2 i3,
    s = String (letter i3) (String (letter i2) (String (letter i1) ""))
    ∧ i1 < 26 ∧ i2 < 26 ∧ i3 < 26
    ∧ (26 ≤ i → letter i2 ≠ "A"%char ∧ letter i1 ≠ "A"%char).
Proof.
  intros Hl Hs.
  destruct (decide (n ≤ 0)%Z) as [Hle|Hpos].
  { unfold _get_ext_list in Hl.
    replace (Z.to_nat n) with 0 in Hl by lia. discriminate. }
  destruct (decide (n < 16276)%Z) as [Hlt|Hge].
  2: { rewrite get_ext_list_above in Hl by lia. discriminate. }
  rewrite get_ext_list_names in Hl by lia. injection Hl as <-.
  rewrite list_lookup_fmap in Hs.
  destruct (counters (Z.to_nat n) (0, 0, 0) !! i) as [c|] eqn:Hc; [|done].
  injection Hs as <-.
  assert (i < Z.to_nat n) as Hi.
  { apply lookup_lt_Some in Hc. by rewrite counters_length in Hc. }
  destruct (counters_sorted (Z.to_nat n) (0, 0, 0)) as [Hall _];
    [cbn; lia | cbn; lia |].
  rewrite Forall_lookup in Hall. destruct (Hall _ _ Hc) as [Hv _].
  rewrite counters_lookup in Hc by done. injection Hc as Hc.
  destruct c as [[i1 i2] i3]. exists i1, i2, i3.
  destruct Hv as (H1 & H2 & H3). repeat split; try done.
  - intros HA. apply letter_A in HA; [|done].
    replace i with ((i - 26) + 26) in Hc by lia.
    rewrite Nat.iter_add in Hc.
    destruct (iter_next_ones (i - 26) (Nat.iter 26 next (0, 0, 0))) as [Hk1 Hk2];
      [vm_compute; lia|].
    rewrite Hc in Hk1, Hk2. cbn in Hk1, Hk2. lia.
  - intros HA. apply letter_A in HA; [|done].
    replace i with ((i - 26) + 26) in Hc by lia.
    rewrite Nat.iter_add in Hc.
    destruct (iter_next_ones (i - 26) (Nat.iter 26 next (0, 0, 0))) as [Hk1 Hk2];
      [vm_compute; lia|].
    rewrite Hc in Hk1, Hk2. cbn in Hk1, Hk2. lia.
Qed.

Lemma get_ext_list_no_A_after_26_example :
  ∃ i1 i2 i3,
    "ABB" = String (letter i3) (String (letter i2) (String (letter i1) ""))
    ∧ i1 < 26 ∧ i2 < 26 ∧ i3 < 26
    ∧ (26 ≤ 26 → letter i2 ≠ "A"%char ∧ letter i1 ≠ "A"%char).
Proof.
  eapply (get_ext_list_no_A_after_26 27 _ 26 "ABB").
  - vm_compute. reflexivity.
  - reflexivity.
Defined.

End AllocatorMore.

(** ** More on the namelist step *)

Module NamelistMore.
Import Wps Cases NamelistProps.

(** X4. When the write itself goes through, the call is all or nothing:
    either it succeeds and only the namelist path has changed, or it raises
    and every file is as it was.  All checks come before the file is
    touched. *)
Theorem prepare_namelist_all_or_nothing work_dir datestart dateend (fs : files) :
  (∃ nml' : namelist,
     _prepare_namelist Completes work_dir datestart dateend fs
     = (<[namelist_path work_dir := Complete nml']> fs, Ok ()))
  ∨ (∃ err,
       _prepare_namelist Completes work_dir datestart dateend fs
       = (fs, Raise err)).
Proof.
  unfold _prepare_namelist.
  destruct (patched_namelist work_dir datestart dateend fs) as [nml'|err];
    [left | right; by eexists].
  exists nml'. unfold nml_write, silentremove. rewrite lookup_delete_eq.
  case_decide as Hsome; [by destruct Hsome|]. by rewrite insert_delete_eq.
Qed.

(** X5. What is missing is reported before anything else is looked at,
    whatever the times are: no file at the path is an [IOError], a namelist
    without the group [share] a [KeyError] for [share], a group without
    [max_dom] a [KeyError] for [max_dom]; the files stay as they were. *)
Theorem prepare_namelist_missing o work_dir datestart dateend (fs : files) :
  (fs !! namelist_path work_dir = None →
   ∃ msg, _prepare_namelist o work_dir datestart dateend fs
          = (fs, Raise (IOError msg)))
  ∧ (∀ nml : namelist,
       fs !! namelist_path work_dir = Some (Complete nml) →
       nml !! "share" = None →
       _prepare_namelist o work_dir datestart dateend fs
       = (fs, Raise (KeyError "share")))
  ∧ (∀ (nml : namelist) (share : gmap string pyval),
       fs !! namelist_path work_dir = Some (Complete nml) →
       nml !! "share" = Some share →
       share !! "max_dom" = None →
       _prepare_namelist o work_dir datestart dateend fs
       = (fs, Raise (KeyError "max_dom"))).
Proof.
  unfold _prepare_namelist, patched_namelist, f90nml_read, getitem.
  split; [|split].
  - intros ->. by eexists.
  - intros nml -> Hshare. cbn [mbind result_bind]. by rewrite Hshare.
  - intros nml share -> Hshare Hdom. cbn [mbind result_bind].
    rewrite Hshare. cbn [mbind result_bind]. by rewrite Hdom.
Qed.

Lemma prepare_namelist_missing_example :
  (∃ msg, _prepare_namelist Completes "/work" (PyDatetime example_start)
            (PyDatetime example_end) ∅
          = (∅, Raise (IOError msg)))
  ∧ _prepare_namelist Completes "/work" (PyStr "2014-07-27")
      (PyDatetime example_end)
      {[ namelist_path "/work" := Complete {[ "share" := ∅ ]} ]}
    = ({[ namelist_path "/work" := Complete {[ "share" := ∅ ]} ]},
       Raise (KeyError "max_dom")).
Proof.
  split.
  - apply (proj1 (prepare_namelist_missing Completes "/work"
                    (PyDatetime example_start) (PyDatetime example_end) ∅)).
    reflexivity.
  - apply (proj2 (proj2 (prepare_namelist_missing Completes "/work"
                    (PyStr "2014-07-27") (PyDatetime example_end)
                    {[ namelist_path "/work" := Complete {[ "share" := ∅ ]} ]}))
             {[ "share" := ∅ ]} ∅).
    + vm_compute. reflexivity.
    + vm_compute. reflexivity.
    + reflexivity.
Defined.

Lemma with_dates_again n s1 e1 s2 e2 (share : gmap string pyval)
    (nml : namelist) :
  with_dates n s2 e2
    (<["end_date" := PyList (replicate n (PyStr e1))]>
       (<["start_date" := PyList (replicate n (PyStr s1))]> share))
    (with_dates n s1 e1 share nml)
  = with_dates n s2 e2 share nml.
Proof.
  unfold with_dates. rewrite insert_insert_eq. f_equal.
  apply map_eq. intros k.
  destruct (decide (k = "end_date")) as [->|Hend].
  { by rewrite !lookup_insert_eq. }
  rewrite !(lookup_insert_ne _ "end_date") by done.
  destruct (decide (k = "start_date")) as [->|Hstart].
  { by rewrite !lookup_insert_eq. }
  rewrite !(lookup_insert_ne _ "start_date") by done.
  by rewrite !lookup_insert_ne by done.
Defined.

(** X6. The last call wins: patching for one time window and then for
    another leaves the files exactly as patching for the second window
    alone; in particular a repeated call changes nothing more. *)
Theorem prepare_namelist_last_wins work_dir (fs : files) (nml : namelist)
    (share : gmap string pyval) (d : Z) start1 end1 start2 end2 s1 e1 s2 e2 :
  fs !! namelist_path work_dir = Some (Complete nml) →
  nml !! "share" = Some share →
  share !! "max_dom" = Some (PyInt d) →
  (1 ≤ d)%Z →
  strftime start1 date_format = Ok s1 → strftime end1 date_format = Ok e1 →
  strftime start2 date_format = Ok s2 → strftime end2 date_format = Ok e2 →
  _prepare_namelist Completes work_dir (PyDatetime start2) (PyDatetime end2)
    (_prepare_namelist Completes work_dir
       (PyDatetime start1) (PyDatetime end1) fs).1
  = _prepare_namelist Completes work_dir
      (PyDatetime start2) (PyDatetime end2) fs.
Proof.
  intros Hfile Hshare Hdom Hd Hs1 He1 Hs2 He2.
  rewrite (prepare_namelist_run work_dir fs nml share (PyInt d)
             Hfile Hshare Hdom Completes start1 end1 s1 e1)
    by (done || cbn; lia).
  rewrite (prepare_namelist_run work_dir fs nml share (PyInt d)
             Hfile Hshare Hdom Completes start2 end2 s2 e2)
    by (done || cbn; lia).
  cbn [fst int_value].
  rewrite (prepare_namelist_run work_dir _
             (with_dates (Z.to_nat d) s1 e1 share nml)
             (<["end_date" := PyList (replicate (Z.to_nat d) (PyStr e1))]>
                (<["start_date" := PyList (replicate (Z.to_nat d) (PyStr s1))]>
                   share))
             (PyInt d)) with (s := s2) (e := e2); try done.
  - cbn [int_value]. by rewrite with_dates_again, insert_insert_eq.
  - apply lookup_insert_eq.
  - unfold with_dates. apply lookup_insert_eq.
  - by rewrite !lookup_insert_ne.
  - cbn. lia.
Qed.

Lemma prepare_namelist_last_wins_example :
  _prepare_namelist Completes "/work"
    (PyDatetime example_end) (PyDatetime example_end)
    (_prepare_namelist Completes "/work"
       (PyDatetime example_start) (PyDatetime example_end)
       (example_files (PyInt 3))).1
  = _prepare_namelist Completes "/work"
      (PyDatetime example_end) (PyDatetime example_end)
      (example_files (PyInt 3)).
Proof.
  eapply (prepare_namelist_last_wins "/work" (example_files (PyInt 3))
            (example_nml (PyInt 3)) {[ "max_dom" := PyInt 3 ]} 3).
  - vm_compute. reflexivity.
  - vm_compute. reflexivity.
  - vm_compute. reflexivity.
  - lia.
  - vm_compute. reflexivity.
  - vm_compute. reflexivity.
  - vm_compute. reflexivity.
  - vm_compute. reflexivity.
Defined.

End NamelistMore.

(** ** More on the work directory *)

Module WorkdirMore.
Import Wps Cases WorkdirProps.

Lemma glob_literal_present names pattern :
  has_magic pattern = false → pattern ∈ names → pattern ∈ glob names pattern.
Proof.
  unfold glob. intros -> Hin. rewrite decide_True by done. by left.
Qed.

Lemma clean_removes_literal (wd : workdir) name :
  name ∈ ["FILE:"; "PFILE:"; "PRES:"] →
  _clean_boundaries_wps wd !! name = None.
Proof.
  intros Hlit. rewrite clean_lookup. case_decide as Hin; [done|].
  destruct (wd !! name) as [x|] eqn:Hx; [|done].
  exfalso. apply Hin.
  assert (name ∈ listdir wd) as Hdir by (apply elem_of_listdir; by eexists).
  rewrite !elem_of_app.
  apply elem_of_cons in Hlit as [->|Hlit];
    [right; left; by apply glob_literal_present|].
  apply elem_of_cons in Hlit as [->|Hlit];
    [right; right; left; by apply glob_literal_present|].
  apply list_elem_of_singleton in Hlit as ->.
  right; right; right. by apply glob_literal_present.
Qed.

Lemma clean_keeps_other (wd : workdir) name :
  ¬ (fnmatch "GRIBFILE.*" name = true ∨ name ∈ ["FILE:"; "PFILE:"; "PRES:"]) →
  _clean_boundaries_wps wd !! name = wd !! name.
Proof.
  intros Hcase. apply clean_keeps.
  - destruct (fnmatch "GRIBFILE.*" name); [|done]. exfalso. apply Hcase. by left.
  - intros ->. apply Hcase. right. set_solver.
  - intros ->. apply Hcase. right. set_solver.
  - intros ->. apply Hcase. right. set_solver.
Qed.

(** X7. What cleaning does to every name: a name goes if it matches
    [GRIBFILE.*] or is exactly [FILE:], [PFILE:] or [PRES:], and is kept
    as it was otherwise; nothing is added or altered. *)
Theorem clean_exact (wd : workdir) name :
  _clean_boundaries_wps wd !! name
  = if decide (fnmatch "GRIBFILE.*" name = true
               ∨ name ∈ ["FILE:"; "PFILE:"; "PRES:"])
    then None else wd !! name.
Proof.
  case_decide as Hcase.
  - destruct Hcase as [Hm|Hlit].
    + by apply clean_removes_gribfiles.
    + by apply clean_removes_literal.
  - by apply clean_keeps_other.
Qed.

Lemma clean_subseteq (wd : workdir) : _clean_boundaries_wps wd ⊆ wd.
Proof.
  apply map_subseteq_spec. intros name x.
  destruct (decide (fnmatch "GRIBFILE.*" name = true
                    ∨ name ∈ ["FILE:"; "PFILE:"; "PRES:"])) as [[Hm|Hlit]|Hno].
  - by rewrite clean_removes_gribfiles.
  - by rewrite clean_removes_literal.
  - by rewrite clean_keeps_other.
Qed.

(** X8. Cleaning twice is cleaning once, and cleaning only takes names
    away: what is left is part of what was there. *)
Theorem clean_idempotent (wd : workdir) :
  _clean_boundaries_wps (_clean_boundaries_wps wd) = _clean_boundaries_wps wd
  ∧ _clean_boundaries_wps wd ⊆ wd.
Proof.
  split; [|apply clean_subseteq].
  apply map_eq. intros name.
  destruct (decide (fnmatch "GRIBFILE.*" name = true
                    ∨ name ∈ ["FILE:"; "PFILE:"; "PRES:"])) as [[Hm|Hlit]|Hno].
  - by rewrite !clean_removes_gribfiles.
  - by rewrite !clean_removes_literal.
  - by rewrite clean_keeps_other.
Qed.

Lemma fnmatch_star name : fnmatch "*" name = true.
Proof. induction name as [|c name IH]; [done|]. cbn. by destruct name. Qed.

Lemma fnmatch_gribfile e : fnmatch "GRIBFILE.*" ("GRIBFILE." +:+ e) = true.
Proof. apply (fnmatch_star e). Qed.

(** The call on a work directory where the names are free. *)
Lemma link_boundary_files_run boundary_dir listing (wd : workdir) exts :
  let fl := boundary_filelist boundary_dir listing in
  fl ≠ [] →
  _get_ext_list (Z.of_nat (length fl)) = Ok exts →
  (∀ e, e ∈ exts → wd !! ("GRIBFILE." +:+ e) = None) →
  length exts = length fl ∧ NoDup exts
  ∧ _link_boundary_files boundary_dir listing wd = (links fl exts wd, Ok ()).
Proof.
  intros fl Hne Hext Hfresh.
  assert (0 < length fl) as Hpos by (destruct fl; [done | cbn; lia]).
  destruct (get_ext_list_ok _ _ Hpos Hext) as [Hlen Hnd].
  split; [done|]. split; [done|].
  unfold _link_boundary_files. fold fl.
  rewrite decide_False by lia. rewrite Hext.
  rewrite link_loop_seq; [| lia | lia | done |].
  - by rewrite !drop_0, !take_ge by lia.
  - intros j e _ He. apply Hfresh. by eapply list_elem_of_lookup_2.
Qed.

Lemma links_is_Some fl exts (wd : workdir) name :
  length fl = length exts →
  is_Some (links fl exts wd !! name)
  ↔ is_Some (wd !! name) ∨ ∃ e, e ∈ exts ∧ name = "GRIBFILE." +:+ e.
Proof.
  revert exts wd. induction fl as [|f fl IH]; intros [|e exts] wd Hlen;
    simplify_eq/=.
  - split; [by left|]. intros [?|(e & He & _)]; [done|].
    by apply elem_of_nil in He.
  - rewrite IH by done. rewrite lookup_insert_is_Some. split.
    + intros [[<-|[_ Hs]]|(e' & He' & ->)].
      * right. exists e. split; [by left | done].
      * by left.
      * right. exists e'. split; [by right | done].
    + intros [Hs|(e' & He' & ->)].
      * destruct (decide ("GRIBFILE." +:+ e = name)); [left; by left|].
        left. right. done.
      * apply elem_of_cons in He' as [->|He']; [left; by left|].
        right. by exists e'.
Qed.

(** X9. After cleaning, linking cannot meet a taken name: whatever the
    work directory held, cleaning it and then linking between 1 and 16275
    boundary files succeeds, and the names matching [GRIBFILE.*] are then
    exactly the new links, no stale one among them. *)
Theorem clean_then_link boundary_dir listing (wd : workdir) :
  let fl := boundary_filelist boundary_dir listing in
  fl ≠ [] → (Z.of_nat (length fl) < 16276)%Z →
  ∃ exts (wd' : workdir),
    _get_ext_list (Z.of_nat (length fl)) = Ok exts
    ∧ _link_boundary_files boundary_dir listing (_clean_boundaries_wps wd)
      = (wd', Ok ())
    ∧ (∀ i f e, fl !! i = Some f → exts !! i = Some e →
         wd' !! ("GRIBFILE." +:+ e) = Some (Symlink f))
    ∧ (∀ name, fnmatch "GRIBFILE.*" name = true →
         is_Some (wd' !! name) → ∃ e, e ∈ exts ∧ name = "GRIBFILE." +:+ e).
Proof.
  intros fl Hne Hlt.
  destruct (AllocatorProps.get_ext_list_below (Z.of_nat (length fl)))
    as (exts & Hext & _).
  { destruct fl; [done | cbn in *; lia]. }
  destruct (link_boundary_files_run boundary_dir listing
              (_clean_boundaries_wps wd) exts Hne Hext) as (Hlen & Hnd & Hrun).
  { intros e _. apply clean_removes_gribfiles, fnmatch_gribfile. }
  exists exts, (links fl exts (_clean_boundaries_wps wd)).
  split; [done|]. split; [done|]. split.
  - intros i f e. by apply links_lookup.
  - intros name Hm Hs. apply links_is_Some in Hs as [Hs|Hs]; [|done|done].
    rewrite clean_removes_gribfiles in Hs by done. by destruct Hs.
Qed.

Lemma clean_then_link_example :
  ∃ exts (wd' : workdir),
    _get_ext_list (Z.of_nat 2) = Ok exts
    ∧ _link_boundary_files "/data/gfs" example_listing
        (_clean_boundaries_wps example_workdir) = (wd', Ok ())
    ∧ (∀ i f e,
         boundary_filelist "/data/gfs" example_listing !! i = Some f →
         exts !! i = Some e →
         wd' !! ("GRIBFILE." +:+ e) = Some (Symlink f))
    ∧ (∀ name, fnmatch "GRIBFILE.*" name = true →
         is_Some (wd' !! name) → ∃ e, e ∈ exts ∧ name = "GRIBFILE." +:+ e).
Proof.
  apply (clean_then_link "/data/gfs" example_listing example_workdir).
  - discriminate.
  - vm_compute. reflexivity.
Defined.

(** The loop up to a taken name: the links before it are made and stay. *)
Lemma link_loop_taken fl exts (wd : workdir) i n j f e :
  i ≤ j → j < i + n → i + n ≤ length fl → i + n ≤ length exts → NoDup exts →
  (∀ k e', i ≤ k → k < j → exts !! k = Some e' →
     wd !! ("GRIBFILE." +:+ e') = None) →
  fl !! j = Some f → exts !! j = Some e →
  is_Some (wd !! ("GRIBFILE." +:+ e)) →
  link_loop (seq i n) fl exts wd
  = (links (take (j - i) (drop i fl)) (take (j - i) (drop i exts)) wd,
     Raise (OSError "File exists")).
Proof.
  revert i wd. induction n as [|n IH];
    intros i wd Hij Hjn Hfl Hexts Hnd Hfresh Hf He Htaken; [lia|].
  cbn [seq link_loop].
  destruct (decide (i = j)) as [->|Hne].
  - unfold index, os_symlink. rewrite Hf, He.
    destruct Htaken as [x ->]. by rewrite Nat.sub_diag.
  - destruct (lookup_lt_is_Some_2 fl i) as [f' Hf']; [lia|].
    destruct (lookup_lt_is_Some_2 exts i) as [e' He']; [lia|].
    unfold index, os_symlink. rewrite Hf', He'.
    rewrite (Hfresh i e') by (done || lia).
    rewrite (IH (S i)); try done; try lia.
    + replace (j - i) with (S (j - S i)) by lia.
      by rewrite (drop_S _ _ _ Hf'), (drop_S _ _ _ He').
    + intros k e'' Hk Hkj He''.
      rewrite lookup_insert_ne; [apply (Hfresh k); done || lia|].
      intros Heq. apply (inj (String.app "GRIBFILE.")) in Heq. subst e''.
      assert (i = k) by (eapply NoDup_lookup; done). lia.
    + rewrite lookup_insert_is_Some. right. split; [|done].
      intros Heq. apply (inj (String.app "GRIBFILE.")) in Heq. subst e'.
      assert (i = j) by (eapply NoDup_lookup; done). lia.
Qed.

(** X10. Linking is not repeatable without cleaning in between: a second
    call on the work directory the first one left raises the [OSError] of
    [os.symlink] at the first file and changes nothing. *)
Theorem link_boundary_files_twice boundary_dir listing (wd wd1 : workdir) :
  _link_boundary_files boundary_dir listing wd = (wd1, Ok ()) →
  (∀ name, fnmatch "GRIBFILE.*" name = true → wd !! name = None) →
  _link_boundary_files boundary_dir listing wd1
  = (wd1, Raise (OSError "File exists")).
Proof.
  intros Hrun Hclean. unfold _link_boundary_files in *.
  set (fl := boundary_filelist boundary_dir listing) in *.
  case_decide as Hlen; [discriminate Hrun|].
  destruct (_get_ext_list (Z.of_nat (length fl))) as [exts|err] eqn:Hext;
    [|discriminate Hrun].
  destruct (get_ext_list_ok (length fl) exts) as [Hlen' Hnd]; [lia | done |].
  rewrite link_loop_seq in Hrun; [| lia | lia | done |].
  2: { intros j e _ _. apply Hclean, fnmatch_gribfile. }
  rewrite !drop_0, !take_ge in Hrun by lia. injection Hrun as <-.
  destruct (lookup_lt_is_Some_2 fl 0) as [f Hf]; [lia|].
  destruct (lookup_lt_is_Some_2 exts 0) as [e He]; [lia|].
  rewrite (link_loop_taken fl exts _ 0 (length fl) 0 f e);
    try done; try lia.
  erewrite links_lookup; done.
Qed.

Lemma link_boundary_files_twice_example :
  _link_boundary_files "/data/gfs" example_listing
    (_link_boundary_files "/data/gfs" example_listing ∅).1
  = ((_link_boundary_files "/data/gfs" example_listing ∅).1,
     Raise (OSError "File exists")).
Proof.
  apply (link_boundary_files_twice "/data/gfs" example_listing ∅).
  - vm_compute. reflexivity.
  - intros name _. apply lookup_empty.
Defined.

(** X11. A taken name stops the linking where it is met and nothing is
    undone: when the name for the j-th file exists already and the names
    before it are free, the call raises the [OSError] and the work
    directory has gained the links of the files before the j-th. *)
Theorem link_boundary_files_stops boundary_dir listing (wd : workdir)
    exts j f e :
  let fl := boundary_filelist boundary_dir listing in
  _get_ext_list (Z.of_nat (length fl)) = Ok exts →
  fl !! j = Some f → exts !! j = Some e →
  is_Some (wd !! ("GRIBFILE." +:+ e)) →
  (∀ k e', k < j → exts !! k = Some e' → wd !! ("GRIBFILE." +:+ e') = None) →
  _link_boundary_files boundary_dir listing wd
  = (links (take j fl) (take j exts) wd, Raise (OSError "File exists")).
Proof.
  intros fl Hext Hf He Htaken Hfresh.
  assert (j < length fl) as Hj by (by eapply lookup_lt_Some).
  destruct (get_ext_list_ok (length fl) exts) as [Hlen Hnd]; [lia | done |].
  unfold _link_boundary_files. fold fl.
  rewrite decide_False by lia. rewrite Hext.
  rewrite (link_loop_taken fl exts wd 0 (length fl) j f e);
    try done; try lia.
  - by rewrite Nat.sub_0_r, !drop_0.
  - intros k e' _. apply Hfresh.
Qed.

Lemma link_boundary_files_stops_example :
  _link_boundary_files "/data/gfs" example_listing
    {[ "GRIBFILE.AAB" := RegularFile ]}
  = (links (take 1 (boundary_filelist "/data/gfs" example_listing))
       (take 1 ["AAA"; "AAB"]) {[ "GRIBFILE.AAB" := RegularFile ]},
     Raise (OSError "File exists")).
Proof.
  apply (link_boundary_files_stops "/data/gfs" example_listing
           {[ "GRIBFILE.AAB" := RegularFile ]} ["AAA"; "AAB"] 1
           "/data/gfs/gfs.t00z.pgrb2f03" "AAB").
  - vm_compute. reflexivity.
  - reflexivity.
  - reflexivity.
  - by eexists.
  - intros [|k] e' Hk He'; [|lia]. injection He' as <-. reflexivity.
Defined.

Lemma path_join2_plain a b :
  String.prefix "/" b = false →
  path_join2 a b
  = (if String.eqb a "" || ends_with_slash a then a else a +:+ "/") +:+ b.
Proof.
  intros Hb. unfold path_join2. rewrite Hb.
  destruct (String.eqb a "" || ends_with_slash a); [done|].
  clear. induction a as [|c a IH]; [done|].
  cbv [String.append]; fold String.append. by rewrite <- IH.
Qed.

Lemma os_path_join_inj dir a b :
  String.prefix "/" a = false → String.prefix "/" b = false →
  os_path_join dir [a] = os_path_join dir [b] → a = b.
Proof.
  intros Ha Hb. unfold os_path_join. cbn [foldl].
  rewrite !path_join2_plain by done. apply (inj _).
Qed.

Lemma NoDup_fst_unique (l : list (string * bool)) x y1 y2 :
  NoDup l.*1 → (x, y1) ∈ l → (x, y2) ∈ l → y1 = y2.
Proof.
  intros Hnd [i Hi]%list_elem_of_lookup [j Hj]%list_elem_of_lookup.
  assert (i = j) as ->.
  { eapply NoDup_lookup; [done| |];
      rewrite list_lookup_fmap; [by rewrite Hi | by rewrite Hj]. }
  congruence.
Qed.

Lemma isfile_entry boundary_dir (listing : list (string * bool)) name b :
  NoDup listing.*1 →
  Forall (λ x, String.prefix "/" x.1 = false) listing →
  (name, b) ∈ listing →
  isfile boundary_dir listing (os_path_join boundary_dir [name]) = b.
Proof.
  intros Hnd Hplain Hin. unfold isfile.
  destruct b.
  - apply existsb_exists. exists (name, true).
    split; [by apply list_elem_of_In|]. cbn. by rewrite String.eqb_refl.
  - apply not_true_is_false. intros Hex.
    apply existsb_exists in Hex as ([name' b'] & Hin' & Hx). cbn in Hx.
    apply andb_true_iff in Hx as [Heq ->]. apply String.eqb_eq in Heq.
    apply list_elem_of_In in Hin'.
    rewrite Forall_forall in Hplain.
    apply os_path_join_inj in Heq;
      [| by apply (Hplain (name', true)) | by apply (Hplain (name, false))].
    subst name'.
    by pose proof (NoDup_fst_unique listing name true false Hnd Hin' Hin).
Qed.

Lemma boundary_filter_sub boundary_dir (listing l : list (string * bool)) :
  NoDup listing.*1 →
  Forall (λ x, String.prefix "/" x.1 = false) listing →
  l ⊆ listing →
  filter (λ fl, isfile boundary_dir listing fl = true)
    ((λ name, os_path_join boundary_dir [name])
       <$> filter (λ name, fnmatch "*" name = true)
             (filter (λ name, hidden name = false) l.*1))
  = (λ x, os_path_join boundary_dir [x.1])
      <$> filter (λ x, x.2 = true ∧ hidden x.1 = false) l.
Proof.
  intros Hnd Hplain.
  induction l as [|[name b] l IH]; intros Hsub; [done|].
  assert ((name, b) ∈ listing) as Hin by (apply Hsub; by left).
  assert (l ⊆ listing) as Hsub' by (intros x Hx; apply Hsub; by right).
  cbn [fmap list_fmap fst]. rewrite !filter_cons. cbn [fst snd].
  destruct (decide (hidden name = false)) as [Hh|Hh].
  - rewrite filter_cons, decide_True by apply fnmatch_star.
    cbn [fmap list_fmap]. rewrite filter_cons.
    rewrite (isfile_entry boundary_dir listing name b) by done.
    destruct b.
    + rewrite !decide_True by done. cbn [fmap list_fmap fst].
      f_equal. by apply IH.
    + rewrite !decide_False by (first [done | by intros [? ?]]).
      by apply IH.
  - rewrite decide_False by (by intros [_ ?]). by apply IH.
Qed.

(** X12. Which files are linked: the entries of the boundary directory
    that are regular files and whose name does not start with a dot, in
    the order of the listing; subdirectories and hidden files are passed
    over (and a directory of nothing else counts as empty). *)
Theorem boundary_filelist_entries boundary_dir (listing : list (string * bool)) :
  NoDup listing.*1 →
  Forall (λ x, String.prefix "/" x.1 = false) listing →
  boundary_filelist boundary_dir listing
  = (λ x, os_path_join boundary_dir [x.1])
      <$> filter (λ x, x.2 = true ∧ hidden x.1 = false) listing.
Proof.
  intros Hnd Hplain. unfold boundary_filelist, glob.
  change (has_magic "*") with true. change (hidden "*") with false.
  cbn match. by apply boundary_filter_sub.
Qed.

Lemma boundary_filelist_entries_example :
  boundary_filelist "/data/gfs"
    [("gfs.t00z.pgrb2f00", true); (".listing", true); ("old", false)]
  = (λ x, os_path_join "/data/gfs" [x.1])
      <$> filter (λ x, x.2 = true ∧ hidden x.1 = false)
            [("gfs.t00z.pgrb2f00", true); (".listing", true); ("old", false)].
Proof.
  apply boundary_filelist_entries.
  - apply (bool_decide_unpack _). vm_compute. exact I.
  - repeat constructor.
Defined.

(** *** What is linked, and when *)





End WorkdirMore.

(** ** The stages, the tables and the pipeline of wps.py *)

Module StagesProps.
Import Wps Cases WpsStages.

(** X13. Linking the Vtable can be repeated: whatever is called [Vtable]
    is removed first, so the call never meets a taken name (unlike the
    linking of boundary files), leaves [Vtable] a link to the GFS table,
    touches no other name, and a second call changes nothing more. *)
Theorem link_vtable_replaces cfg (wd : workdir) fsys wps_dir :
  filesystem cfg = Some fsys → fsys !! "wps_dir" = Some wps_dir →
  let target :=
    os_path_join wps_dir ["ungrib"; "Variable_Tables"; "Vtable.GFS"] in
  _link_vtable cfg wd = (<["Vtable" := Symlink target]> wd, Ok ())
  ∧ _link_vtable cfg (<["Vtable" := Symlink target]> wd)
    = (<["Vtable" := Symlink target]> wd, Ok ()).
Proof.
  intros Hfs Hwps target. unfold _link_vtable, section, getitem, os_symlink,
    silentremove. rewrite Hfs. cbn [mbind result_bind]. rewrite Hwps.
  rewrite !lookup_delete_eq. fold target.
  by rewrite delete_insert_eq, !insert_delete_eq.
Qed.

Lemma link_vtable_replaces_example :
  let target := "/opt/WPS/ungrib/Variable_Tables/Vtable.GFS" in
  let cfg := mk_wps_config (Some {[ "wps_dir" := "/opt/WPS" ]}) None None in
  _link_vtable cfg {[ "Vtable" := RegularFile ]}
  = (<["Vtable" := Symlink target]> {[ "Vtable" := RegularFile ]}, Ok ())
  ∧ _link_vtable cfg (<["Vtable" := Symlink target]> {[ "Vtable" := RegularFile ]})
    = (<["Vtable" := Symlink target]> {[ "Vtable" := RegularFile ]}, Ok ()).
Proof.
  apply (link_vtable_replaces
           (mk_wps_config (Some {[ "wps_dir" := "/opt/WPS" ]}) None None)
           {[ "Vtable" := RegularFile ]} {[ "wps_dir" := "/opt/WPS" ]}
           "/opt/WPS"); reflexivity.
Defined.

(** X14. The old [Vtable] is removed before the configuration is read:
    when [wps_dir] (or the whole [filesystem] section) is missing, the call
    raises [KeyError] and the work directory is left without a [Vtable]. *)
Theorem link_vtable_missing_key cfg (wd : workdir) :
  (filesystem cfg = None →
   _link_vtable cfg wd = (delete "Vtable" wd, Raise (KeyError "filesystem")))
  ∧ (∀ fsys, filesystem cfg = Some fsys → fsys !! "wps_dir" = None →
       _link_vtable cfg wd = (delete "Vtable" wd, Raise (KeyError "wps_dir"))).
Proof.
  unfold _link_vtable, section, getitem, silentremove. split.
  - by intros ->.
  - intros fsys -> Hwps. cbn [mbind result_bind]. by rewrite Hwps.
Qed.

Lemma link_vtable_missing_key_example :
  _link_vtable (mk_wps_config (Some ∅) None None)
    {[ "Vtable" := Symlink "/old/Vtable.GFS" ]}
  = (delete "Vtable" {[ "Vtable" := Symlink "/old/Vtable.GFS" ]},
     Raise (KeyError "wps_dir")).
Proof.
  apply (proj2 (link_vtable_missing_key (mk_wps_config (Some ∅) None None)
                  {[ "Vtable" := Symlink "/old/Vtable.GFS" ]}) ∅);
    reflexivity.
Defined.

(** X15. A stage that ends with a status other than 0 does not surface as
    [CalledProcessError]: the [except] clause names a class the module
    never bound, so the outcome is a [NameError]; the command has been
    run, and no outcome of a stage is ever a [CalledProcessError]. *)
Theorem run_stage_failure_is_NameError stage cfg present exit_status log :
  (∀ cmd, stage_command stage cfg present = Ok cmd →
     exit_status cmd ≠ 0%Z →
     run_stage stage cfg present exit_status log
     = (log ++ [cmd], Failed (NameError "CalledProcessError")))
  ∧ ∀ code cmd,
      (run_stage stage cfg present exit_status log).2
      ≠ Failed (CalledProcessError code cmd).
Proof.
  unfold run_stage, check_call. split.
  - intros cmd -> Hexit. by rewrite decide_False.
  - intros code cmd. destruct (stage_command stage cfg present); [|done].
    by case_decide.
Qed.

Lemma run_stage_failure_is_NameError_example :
  let cfg :=
    mk_wps_config (Some {[ "wps_dir" := "/opt/WPS" ]})
      (Some {[ "slurm_geogrid.exe" := PyStr "" ]}) None in
  _run_geogrid cfg (λ _, true) (λ _, 1%Z) []
  = ([] ++ ["/opt/WPS/geogrid/geogrid.exe"],
     Failed (NameError "CalledProcessError")).
Proof.
  apply (proj1 (run_stage_failure_is_NameError "geogrid"
                  (mk_wps_config (Some {[ "wps_dir" := "/opt/WPS" ]})
                     (Some {[ "slurm_geogrid.exe" := PyStr "" ]}) None)
                  (λ _, true) (λ _, 1%Z) [])).
  - vm_compute. reflexivity.
  - discriminate.
Defined.

(** X16. The two files read the same kind of setting differently: a
    setting that is null makes a stage of wps.py raise [TypeError] (it
    takes its [len]) before anything is run, while the suite generator
    takes the same null for no batch script and selects background. *)
Theorem run_stage_null_setting stage cfg present exit_status log opts scripts :
  options_slurm cfg = Some opts →
  opts !! ("slurm_" +:+ stage +:+ ".exe") = Some PyNone →
  (∃ msg, run_stage stage cfg present exit_status log
          = (log, Failed (Exn (TypeError msg))))
  ∧ Wrfpy.job_submission PyNone scripts = Ok ("background", "").
Proof.
  intros Hopts Hv. split; [|done].
  unfold run_stage, stage_command, section, getitem.
  rewrite Hopts. cbn [mbind result_bind]. rewrite Hv. by eexists.
Qed.

Lemma run_stage_null_setting_example :
  (∃ msg, _run_ungrib
            (mk_wps_config (Some {[ "wps_dir" := "/opt/WPS" ]})
               (Some {[ "slurm_ungrib.exe" := PyNone ]}) None)
            (λ _, true) (λ _, 0%Z) []
          = ([], Failed (Exn (TypeError msg))))
  ∧ Wrfpy.job_submission PyNone ∅ = Ok ("background", "").
Proof.
  apply (run_stage_null_setting "ungrib"
           (mk_wps_config (Some {[ "wps_dir" := "/opt/WPS" ]})
              (Some {[ "slurm_ungrib.exe" := PyNone ]}) None)
           (λ _, true) (λ _, 0%Z) [] {[ "slurm_ungrib.exe" := PyNone ]} ∅);
    reflexivity.
Defined.

(** X17. Whether a batch script is used is read from [options_slurm], but
    its path from the section [slurm]: with a non-empty setting in
    [options_slurm] and no such section, or no such key in it, the stage
    raises [KeyError] and runs nothing, wherever the executables are. *)
Theorem run_stage_slurm_section stage cfg present exit_status log opts script :
  options_slurm cfg = Some opts →
  opts !! ("slurm_" +:+ stage +:+ ".exe") = Some (PyStr script) →
  script ≠ "" →
  (slurm cfg = None →
   run_stage stage cfg present exit_status log
   = (log, Failed (Exn (KeyError "slurm"))))
  ∧ (∀ sl, slurm cfg = Some sl →
       sl !! ("slurm_" +:+ stage +:+ ".exe") = None →
       run_stage stage cfg present exit_status log
       = (log, Failed (Exn (KeyError ("slurm_" +:+ stage +:+ ".exe"))))).
Proof.
  intros Hopts Hv Hne.
  assert (String.length script ≠ 0) as Hlen by (by destruct script).
  unfold run_stage, stage_command, section, getitem.
  rewrite Hopts. cbn [mbind result_bind]. rewrite Hv.
  cbn [mbind result_bind py_len]. rewrite decide_True by done. split.
  - by intros ->.
  - intros sl -> Hsl. cbn [mbind result_bind]. by rewrite Hsl.
Qed.

Lemma run_stage_slurm_section_example :
  _run_metgrid
    (mk_wps_config (Some {[ "wps_dir" := "/opt/WPS" ]})
       (Some {[ "slurm_metgrid.exe" := PyStr "/suite/metgrid.sh" ]}) None)
    (λ _, true) (λ _, 0%Z) []
  = ([], Failed (Exn (KeyError "slurm"))).
Proof.
  destruct (run_stage_slurm_section "metgrid"
              (mk_wps_config (Some {[ "wps_dir" := "/opt/WPS" ]})
                 (Some {[ "slurm_metgrid.exe" := PyStr "/suite/metgrid.sh" ]})
                 None)
              (λ _, true) (λ _, 0%Z) []
              {[ "slurm_metgrid.exe" := PyStr "/suite/metgrid.sh" ]}
              "/suite/metgrid.sh") as [Hnone _].
  - reflexivity.
  - vm_compute. reflexivity.
  - discriminate.
  - apply Hnone. reflexivity.
Defined.

End StagesProps.

(** *** The pipeline *)

Module PipelineProps.
Import Wps Cases WpsStages StageCases NamelistProps WorkdirProps WorkdirMore.

Lemma stage_command_local stage cfg present fsys wps_dir opts :
  filesystem cfg = Some fsys → fsys !! "wps_dir" = Some wps_dir →
  options_slurm cfg = Some opts →
  opts !! ("slurm_" +:+ stage +:+ ".exe") = Some (PyStr "") →
  present (os_path_join wps_dir [stage; stage +:+ ".exe"]) = true →
  stage_command stage cfg present
  = Ok (os_path_join wps_dir [stage; stage +:+ ".exe"]).
Proof.
  intros Hfs Hwps Hopts Hv Hp. unfold stage_command, section, getitem.
  rewrite Hopts. cbn [mbind result_bind]. rewrite Hv.
  cbn [mbind result_bind py_len String.length].
  rewrite decide_False by (intros H; by apply H).
  rewrite Hfs. cbn [mbind result_bind]. rewrite Hwps.
  cbn [mbind result_bind]. unfold check_file_exists. by rewrite Hp.
Qed.

Section pipeline.
Context (env : environment) (cfg : wps_config).
Context (boundary_dir : string) (listing : list (string * bool)).
Context (w : world) (fsys : gmap string string) (work_dir : string).
Context (nml : namelist) (share : gmap string pyval) (d : Z).
Context (start end_ : datetime) (s e : string).
Hypothesis Hfs : filesystem cfg = Some fsys.
Hypothesis Hwork : fsys !! "work_dir" = Some work_dir.
Hypothesis Hwrite : write env = Completes.
Hypothesis Hfile : w_files w !! namelist_path work_dir = Some (Complete nml).
Hypothesis Hshare : nml !! "share" = Some share.
Hypothesis Hdom : share !! "max_dom" = Some (PyInt d).
Hypothesis Hd : (1 ≤ d)%Z.
Hypothesis Hs : strftime start date_format = Ok s.
Hypothesis He : strftime end_ date_format = Ok e.

Let patched : files :=
  <[namelist_path work_dir := Complete (with_dates (Z.to_nat d) s e share nml)]>
    (w_files w).

Lemma wps_init_steps :
  wps_init env cfg boundary_dir listing (PyDatetime start) (PyDatetime end_) w
  = let link w :=
      let '(wd, r) := _link_boundary_files boundary_dir listing (w_wd w) in
      (mk_world (w_files w) wd (w_log w), lift r) in
    let run stage w :=
      let '(log, r) :=
        stage cfg (present env) (exit_status env) (w_log w) in
      (mk_world (w_files w) (w_wd w) log, r) in
    let vtable w :=
      let '(wd, r) := _link_vtable cfg (w_wd w) in
      (mk_world (w_files w) wd (w_log w), lift r) in
    and_then (and_then (and_then (and_then
      (link (mk_world patched (_clean_boundaries_wps (w_wd w)) (w_log w)))
      (run _run_geogrid)) vtable) (run _run_ungrib)) (run _run_metgrid).
Proof.
  unfold wps_init, section, getitem. rewrite Hfs. cbn [mbind result_bind].
  rewrite Hwork. cbn [and_then w_files w_wd w_log]. rewrite Hwrite.
  rewrite (prepare_namelist_run work_dir (w_files w) nml share (PyInt d)
             Hfile Hshare Hdom Completes start end_ s e)
    by (done || cbn; lia).
  done.
Qed.

(** X19. Nothing is rolled back: when the boundary directory yields no
    file, the pipeline ends with the no-files [IOError] of the linking
    step, and by then the work directory has been cleaned and the namelist
    rewritten for the new window; no stage has been run. *)
Theorem wps_init_no_boundary_files :
  boundary_filelist boundary_dir listing = [] →
  wps_init env cfg boundary_dir listing (PyDatetime start) (PyDatetime end_) w
  = (mk_world patched (_clean_boundaries_wps (w_wd w)) (w_log w),
     Failed (Exn (IOError no_files_message))).
Proof.
  intros Hnone. rewrite wps_init_steps. cbv beta zeta.
  cbn [w_files w_wd w_log]. unfold _link_boundary_files. rewrite Hnone. cbn [length].
  rewrite decide_True by done. done.
Qed.

(** The first three steps when there are files to link. *)
Lemma wps_init_linked exts :
  boundary_filelist boundary_dir listing ≠ [] →
  _get_ext_list (Z.of_nat (length (boundary_filelist boundary_dir listing)))
  = Ok exts →
  wps_init env cfg boundary_dir listing (PyDatetime start) (PyDatetime end_) w
  = let run stage w :=
      let '(log, r) :=
        stage cfg (present env) (exit_status env) (w_log w) in
      (mk_world (w_files w) (w_wd w) log, r) in
    let vtable w :=
      let '(wd, r) := _link_vtable cfg (w_wd w) in
      (mk_world (w_files w) wd (w_log w), lift r) in
    and_then (and_then (and_then
      (run _run_geogrid
         (mk_world patched
            (links (boundary_filelist boundary_dir listing) exts
               (_clean_boundaries_wps (w_wd w))) (w_log w)))
      vtable) (run _run_ungrib)) (run _run_metgrid).
Proof.
  intros Hne Hext. rewrite wps_init_steps. cbv beta zeta.
  cbn [w_files w_wd w_log].
  destruct (link_boundary_files_run boundary_dir listing
              (_clean_boundaries_wps (w_wd w)) exts Hne Hext) as (_ & _ & ->).
  { intros e' _. apply clean_removes_gribfiles, fnmatch_gribfile. }
  done.
Qed.

(** X18. A run in which everything goes well: with the executables
    configured to run directly, present and ending with status 0, a
    namelist that can be patched and between 1 and 16275 boundary files,
    the pipeline ends normally; the namelist is patched, the boundary
    files are linked into the cleaned work directory, [Vtable] is linked,
    and exactly geogrid, ungrib and metgrid have been run, in this
    order. *)
Theorem wps_init_runs exts wps_dir opts :
  boundary_filelist boundary_dir listing ≠ [] →
  _get_ext_list (Z.of_nat (length (boundary_filelist boundary_dir listing)))
  = Ok exts →
  fsys !! "wps_dir" = Some wps_dir →
  options_slurm cfg = Some opts →
  Forall (λ stage,
    opts !! ("slurm_" +:+ stage +:+ ".exe") = Some (PyStr "")
    ∧ present env (os_path_join wps_dir [stage; stage +:+ ".exe"]) = true
    ∧ exit_status env (os_path_join wps_dir [stage; stage +:+ ".exe"]) = 0%Z)
    ["geogrid"; "ungrib"; "metgrid"] →
  wps_init env cfg boundary_dir listing (PyDatetime start) (PyDatetime end_) w
  = (mk_world patched
       (<["Vtable" := Symlink (os_path_join wps_dir
                                 ["ungrib"; "Variable_Tables"; "Vtable.GFS"])]>
          (links (boundary_filelist boundary_dir listing) exts
             (_clean_boundaries_wps (w_wd w))))
       (w_log w ++ [os_path_join wps_dir ["geogrid"; "geogrid.exe"];
                    os_path_join wps_dir ["ungrib"; "ungrib.exe"];
                    os_path_join wps_dir ["metgrid"; "metgrid.exe"]]),
     Ran).
Proof.
  intros Hne Hext Hwps Hopts Hstages.
  apply Forall_cons in Hstages as [(Hg1 & Hg2 & Hg3) Hstages].
  apply Forall_cons in Hstages as [(Hu1 & Hu2 & Hu3) Hstages].
  apply Forall_cons in Hstages as [(Hm1 & Hm2 & Hm3) _].
  rewrite (wps_init_linked exts Hne Hext). cbv beta zeta.
  unfold _run_geogrid, _run_ungrib, _run_metgrid, run_stage.
  cbn [w_files w_wd w_log].
  rewrite (stage_command_local "geogrid" cfg _ fsys wps_dir opts) by done.
  unfold check_call at 1. rewrite decide_True by done.
  cbn [except_CalledProcessError and_then w_files w_wd w_log].
  unfold _link_vtable, section, getitem, os_symlink, silentremove.
  rewrite Hfs. cbn [mbind result_bind]. rewrite Hwps, lookup_delete_eq.
  rewrite insert_delete_eq. cbn [lift and_then w_files w_wd w_log].
  rewrite (stage_command_local "ungrib" cfg _ fsys wps_dir opts) by done.
  unfold check_call at 1. rewrite decide_True by done.
  cbn [except_CalledProcessError and_then w_files w_wd w_log].
  rewrite (stage_command_local "metgrid" cfg _ fsys wps_dir opts) by done.
  unfold check_call. rewrite decide_True by done.
  cbn [except_CalledProcessError]. by rewrite <- !app_assoc.
Qed.

(** X20. A failing stage ends the run where it is: when geogrid ends with
    a status other than 0 the pipeline ends with the [NameError] of its
    [except] clause; the namelist is patched and the boundary files are
    linked, but [Vtable] is not touched and neither ungrib nor metgrid is
    run. *)
Theorem wps_init_geogrid_fails exts wps_dir opts :
  boundary_filelist boundary_dir listing ≠ [] →
  _get_ext_list (Z.of_nat (length (boundary_filelist boundary_dir listing)))
  = Ok exts →
  fsys !! "wps_dir" = Some wps_dir →
  options_slurm cfg = Some opts →
  opts !! "slurm_geogrid.exe" = Some (PyStr "") →
  present env (os_path_join wps_dir ["geogrid"; "geogrid.exe"]) = true →
  exit_status env (os_path_join wps_dir ["geogrid"; "geogrid.exe"]) ≠ 0%Z →
  wps_init env cfg boundary_dir listing (PyDatetime start) (PyDatetime end_) w
  = (mk_world patched
       (links (boundary_filelist boundary_dir listing) exts
          (_clean_boundaries_wps (w_wd w)))
       (w_log w ++ [os_path_join wps_dir ["geogrid"; "geogrid.exe"]]),
     Failed (NameError "CalledProcessError")).
Proof.
  intros Hne Hext Hwps Hopts Hg1 Hg2 Hg3.
  rewrite (wps_init_linked exts Hne Hext). cbv beta zeta.
  unfold _run_geogrid, run_stage. cbn [w_files w_wd w_log].
  rewrite (stage_command_local "geogrid" cfg _ fsys wps_dir opts) by done.
  unfold check_call. by rewrite decide_False.
Qed.

End pipeline.

Lemma wps_init_no_boundary_files_example :
  wps_init fair_weather local_config "/data/empty" [("old", false)]
    (PyDatetime example_start) (PyDatetime example_end) example_world
  = (mk_world
       (<[namelist_path "/work" :=
            Complete (with_dates (Z.to_nat 3) "2014-07-27_00:00:00"
                        "2014-07-27_06:00:00" {[ "max_dom" := PyInt 3 ]}
                        (example_nml (PyInt 3)))]>
          (example_files (PyInt 3)))
       (_clean_boundaries_wps example_workdir) [],
     Failed (Exn (IOError no_files_message))).
Proof.
  eapply (wps_init_no_boundary_files fair_weather local_config "/data/empty"
            [("old", false)] example_world _ "/work" (example_nml (PyInt 3))
            {[ "max_dom" := PyInt 3 ]} 3 example_start example_end).
  - reflexivity.
  - vm_compute. reflexivity.
  - reflexivity.
  - vm_compute. reflexivity.
  - vm_compute. reflexivity.
  - vm_compute. reflexivity.
  - lia.
  - vm_compute. reflexivity.
  - vm_compute. reflexivity.
  - vm_compute. reflexivity.
Defined.

Lemma wps_init_runs_example :
  wps_init fair_weather local_config "/data/gfs" example_listing
    (PyDatetime example_start) (PyDatetime example_end) example_world
  = (mk_world
       (<[namelist_path "/work" :=
            Complete (with_dates (Z.to_nat 3) "2014-07-27_00:00:00"
                        "2014-07-27_06:00:00" {[ "max_dom" := PyInt 3 ]}
                        (example_nml (PyInt 3)))]>
          (example_files (PyInt 3)))
       (<["Vtable" := Symlink (os_path_join "/opt/WPS"
                                 ["ungrib"; "Variable_Tables"; "Vtable.GFS"])]>
          (links (boundary_filelist "/data/gfs" example_listing)
             ["AAA"; "AAB"] (_clean_boundaries_wps example_workdir)))
       ([] ++ [os_path_join "/opt/WPS" ["geogrid"; "geogrid.exe"];
               os_path_join "/opt/WPS" ["ungrib"; "ungrib.exe"];
               os_path_join "/opt/WPS" ["metgrid"; "metgrid.exe"]]),
     Ran).
Proof.
  eapply (wps_init_runs fair_weather local_config "/data/gfs" example_listing
            example_world _ "/work" (example_nml (PyInt 3))
            {[ "max_dom" := PyInt 3 ]} 3 example_start example_end).
  - reflexivity.
  - vm_compute. reflexivity.
  - reflexivity.
  - vm_compute. reflexivity.
  - vm_compute. reflexivity.
  - vm_compute. reflexivity.
  - lia.
  - vm_compute. reflexivity.
  - vm_compute. reflexivity.
  - discriminate.
  - vm_compute. reflexivity.
  - vm_compute. reflexivity.
  - reflexivity.
  - repeat constructor; vm_compute; reflexivity.
Defined.

Lemma wps_init_geogrid_fails_example :
  wps_init geogrid_fails local_config "/data/gfs" example_listing
    (PyDatetime example_start) (PyDatetime example_end) example_world
  = (mk_world
       (<[namelist_path "/work" :=
            Complete (with_dates (Z.to_nat 3) "2014-07-27_00:00:00"
                        "2014-07-27_06:00:00" {[ "max_dom" := PyInt 3 ]}
                        (example_nml (PyInt 3)))]>
          (example_files (PyInt 3)))
       (links (boundary_filelist "/data/gfs" example_listing)
          ["AAA"; "AAB"] (_clean_boundaries_wps example_workdir))
       ([] ++ [os_path_join "/opt/WPS" ["geogrid"; "geogrid.exe"]]),
     Failed (NameError "CalledProcessError")).
Proof.
  eapply (wps_init_geogrid_fails geogrid_fails local_config "/data/gfs"
            example_listing example_world _ "/work" (example_nml (PyInt 3))
            {[ "max_dom" := PyInt 3 ]} 3 example_start example_end).
  - reflexivity.
  - vm_compute. reflexivity.
  - reflexivity.
  - vm_compute. reflexivity.
  - vm_compute. reflexivity.
  - vm_compute. reflexivity.
  - lia.
  - vm_compute. reflexivity.
  - vm_compute. reflexivity.
  - discriminate.
  - vm_compute. reflexivity.
  - vm_compute. reflexivity.
  - reflexivity.
  - vm_compute. reflexivity.
  - reflexivity.
  - vm_compute. discriminate.
Defined.

End PipelineProps.

(** *** The tables *)

Module TablesProps.
Import Wps Cases WpsStages StageCases.

Lemma link_tbl_present dir tbl cfg resolves (dirs : subdirs) :
  isfile_in resolves dirs dir tbl = true →
  link_tbl dir tbl cfg resolves dirs = (dirs, Ok ()).
Proof. unfold link_tbl. by intros ->. Qed.

(** X21. Tables that are in place are left alone: when [GEOGRID.TBL] and
    [METGRID.TBL] are regular files (or links to regular files) in their
    subdirectories, the call changes nothing and reads no configuration,
    so it succeeds even with an empty one. *)
Theorem link_tbl_files_in_place cfg resolves (dirs : subdirs) :
  isfile_in resolves dirs "geogrid" "GEOGRID.TBL" = true →
  isfile_in resolves dirs "metgrid" "METGRID.TBL" = true →
  _link_tbl_files cfg resolves dirs = (dirs, Ok ()).
Proof.
  intros Hg Hm. unfold _link_tbl_files.
  rewrite (link_tbl_present "geogrid") by done.
  by rewrite (link_tbl_present "metgrid").
Qed.

Lemma link_tbl_files_in_place_example :
  _link_tbl_files (mk_wps_config None None None) (λ _, false)
    {[ "geogrid" := {[ "GEOGRID.TBL" := RegularFile ]};
       "metgrid" := {[ "METGRID.TBL" := RegularFile ]} ]}
  = ({[ "geogrid" := {[ "GEOGRID.TBL" := RegularFile ]};
        "metgrid" := {[ "METGRID.TBL" := RegularFile ]} ]}, Ok ()).
Proof. apply link_tbl_files_in_place; vm_compute; reflexivity. Defined.

Lemma link_tbl_absent dir tbl cfg resolves (dirs : subdirs) fsys wps_dir :
  filesystem cfg = Some fsys → fsys !! "wps_dir" = Some wps_dir →
  (∀ names, dirs !! dir = Some names → names !! tbl = None) →
  link_tbl dir tbl cfg resolves dirs
  = (<[dir := <[tbl := Symlink (os_path_join wps_dir [dir; tbl +:+ ".ARW"])]>
                (default ∅ (dirs !! dir))]> dirs, Ok ()).
Proof.
  intros Hfs Hwps Hfree. unfold link_tbl, isfile_in, section, getitem.
  rewrite Hfs. cbn [mbind result_bind]. rewrite Hwps.
  unfold _create_directory, symlink_in.
  destruct (dirs !! dir) as [names|] eqn:Hdir.
  - pose proof (Hfree names eq_refl) as Hn. rewrite Hn. cbn [negb].
    by rewrite Hdir, Hn.
  - cbn [negb]. rewrite lookup_insert_eq, lookup_empty.
    by rewrite insert_insert_eq.
Qed.

Lemma link_tbl_dangling dir tbl cfg resolves (dirs : subdirs) fsys wps_dir
    names target :
  filesystem cfg = Some fsys → fsys !! "wps_dir" = Some wps_dir →
  dirs !! dir = Some names → names !! tbl = Some (Symlink target) →
  resolves target = false →
  link_tbl dir tbl cfg resolves dirs = (dirs, Raise (OSError "File exists")).
Proof.
  intros Hfs Hwps Hdir Htbl Hres. unfold link_tbl, isfile_in, section, getitem.
  rewrite Hdir, Htbl, Hres. cbn [negb]. rewrite Hfs.
  cbn [mbind result_bind]. rewrite Hwps.
  unfold _create_directory. rewrite Hdir.
  unfold symlink_in. by rewrite Hdir, Htbl.
Qed.

(** X22. Repeating the call is safe only while the tables of the WPS
    installation exist.  Starting without the two names, the call links
    both tables (creating the subdirectories if need be).  A second call
    then changes nothing if both links lead to regular files; but if the
    table [GEOGRID.TBL.ARW] is not there, the link made is dangling, the
    second call takes the name for missing and raises the [OSError] of
    [os.symlink]. *)
Theorem link_tbl_files_again cfg resolves (dirs : subdirs) fsys wps_dir :
  filesystem cfg = Some fsys → fsys !! "wps_dir" = Some wps_dir →
  (∀ names, dirs !! "geogrid" = Some names → names !! "GEOGRID.TBL" = None) →
  (∀ names, dirs !! "metgrid" = Some names → names !! "METGRID.TBL" = None) →
  let geogridtbl := os_path_join wps_dir ["geogrid"; "GEOGRID.TBL.ARW"] in
  let metgridtbl := os_path_join wps_dir ["metgrid"; "METGRID.TBL.ARW"] in
  let dirs' : subdirs :=
    <["metgrid" := <["METGRID.TBL" := Symlink metgridtbl]>
                     (default ∅ (dirs !! "metgrid"))]>
      (<["geogrid" := <["GEOGRID.TBL" := Symlink geogridtbl]>
                        (default ∅ (dirs !! "geogrid"))]> dirs) in
  _link_tbl_files cfg resolves dirs = (dirs', Ok ())
  ∧ (resolves geogridtbl = true → resolves metgridtbl = true →
     _link_tbl_files cfg resolves dirs' = (dirs', Ok ()))
  ∧ (resolves geogridtbl = false →
     _link_tbl_files cfg resolves dirs'
     = (dirs', Raise (OSError "File exists"))).
Proof.
  intros Hfs Hwps Hg Hm geogridtbl metgridtbl dirs'.
  split; [|split].
  - unfold _link_tbl_files.
    rewrite (link_tbl_absent "geogrid" "GEOGRID.TBL" cfg resolves dirs
               fsys wps_dir) by done.
    rewrite (link_tbl_absent "metgrid" "METGRID.TBL" cfg resolves _
               fsys wps_dir); [|done|done|].
    + by rewrite lookup_insert_ne.
    + intros names. rewrite lookup_insert_ne by done. apply Hm.
  - intros Hrg Hrm. unfold _link_tbl_files.
    rewrite (link_tbl_present "geogrid").
    + rewrite (link_tbl_present "metgrid"); [done|].
      unfold isfile_in, dirs'. by rewrite !lookup_insert_eq.
    + unfold isfile_in, dirs'. rewrite lookup_insert_ne by done.
      by rewrite !lookup_insert_eq.
  - intros Hrg. unfold _link_tbl_files.
    by rewrite (link_tbl_dangling "geogrid" "GEOGRID.TBL" cfg resolves dirs'
                  fsys wps_dir
                  (<["GEOGRID.TBL" := Symlink geogridtbl]>
                     (default ∅ (dirs !! "geogrid"))) geogridtbl)
      by (try done; unfold dirs';
          by rewrite ?(lookup_insert_ne _ "metgrid"), lookup_insert_eq by done).
Qed.

Lemma link_tbl_files_again_example :
  _link_tbl_files tables_config (λ _, false) ∅ = (linked_tables, Ok ())
  ∧ _link_tbl_files tables_config (λ _, false) linked_tables
    = (linked_tables, Raise (OSError "File exists")).
Proof.
  destruct (link_tbl_files_again tables_config (λ _, false) ∅
              {[ "wps_dir" := "/opt/WPS" ]} "/opt/WPS") as (H1 & _ & H3).
  - reflexivity.
  - reflexivity.
  - intros names Hn. by rewrite lookup_empty in Hn.
  - intros names Hn. by rewrite lookup_empty in Hn.
  - split; [exact H1 | exact (H3 eq_refl)].
Defined.

End TablesProps.

(** ** The whole document *)

Module DocumentProps.
Import Wrfpy WrfpySuite Cases SuiteCases SuiteProps.

Lemma append_nil_r (s : string) : s +:+ "" = s.
Proof. induction s as [|c s IH]; [done|]. str_cons. by rewrite IH. Qed.

Lemma glue_nl la lb : glue (la ++ [""]) ("" :: lb) = la ++ "" :: lb.
Proof.
  induction la as [|x la IH]; [done|].
  cbn [app glue]. rewrite IH. by destruct la.
Qed.

Lemma split_char_glue_nl a b la lb :
  split_char newline a = la ++ [""] → split_char newline b = "" :: lb →
  split_char newline (a +:+ b) = la ++ "" :: lb.
Proof. intros Ha Hb. by rewrite split_char_app, Ha, Hb, glue_nl. Qed.

Lemma blocks_go_app l1 l2 st :
  blocks_go (l1 ++ l2) st = blocks_go l1 st ++ blocks_go l2 (script_state l1 st).
Proof.
  revert st. induction l1 as [|l l1 IH]; intros st; [done|].
  cbn [app blocks_go script_state]. destruct st; [apply IH|].
  destruct (String.eqb (lstrip l) script_open); [apply IH|].
  destruct (block_name (lstrip l)); cbn [app]; by rewrite IH.
Qed.

Lemma script_state_app l1 l2 st :
  script_state (l1 ++ l2) st = script_state l2 (script_state l1 st).
Proof.
  revert st. induction l1 as [|l l1 IH]; intros st; [done|].
  cbn [app script_state]. destruct st; apply IH.
Qed.

Lemma lstrip_indent l : lstrip (indent +:+ l) = lstrip l.
Proof. reflexivity. Qed.

Lemma blocks_go_plain ls :
  Forall (λ l, plain l = true) ls →
  blocks_go ((λ l, indent +:+ l) <$> ls) false = []
  ∧ script_state ((λ l, indent +:+ l) <$> ls) false = false.
Proof.
  induction 1 as [|l ls Hl _ IH]; [done|].
  cbn [fmap list_fmap blocks_go script_state]. rewrite lstrip_indent.
  apply andb_true_iff in Hl as [Hs Hp]. apply negb_true_iff in Hs, Hp.
  rewrite Hs. unfold block_name. rewrite Hp. exact IH.
Qed.

Lemma one_line_split s :
  Forall (λ l, one_line l = true) (split_char newline s).
Proof.
  induction s as [|c r IH]; [by repeat constructor|].
  cbn [split_char]. destruct (Ascii.eqb c newline) eqn:Hc.
  - by constructor.
  - pose proof (split_char_nonempty newline r) as Hr.
    destruct (split_char newline r) as [|l ls]; [done|].
    apply Forall_cons in IH as [Hl Hls]. constructor; [|done].
    cbn [one_line]. by rewrite Hc.
Qed.

Lemma split_char_join ls :
  ls ≠ [] → Forall (λ l, one_line l = true) ls →
  split_char newline (join nl ls) = ls.
Proof.
  induction ls as [|x [|y ys] IH]; intros Hne Hall; [done| |].
  - apply split_char_one_line. by apply Forall_cons in Hall as [? _].
  - change (join nl (x :: y :: ys)) with (x +:+ nl +:+ join nl (y :: ys)).
    apply Forall_cons in Hall as [Hx Hall].
    rewrite !split_char_app, (split_char_one_line x Hx), IH by done.
    cbn. by rewrite append_nil_r.
Qed.

Lemma glue_nl_l la lb : lb ≠ [] → glue (la ++ [""]) lb = la ++ lb.
Proof.
  intros Hlb. induction la as [|x la IH].
  - by destruct lb.
  - cbn [app glue]. rewrite IH. by destruct la.
Qed.

Lemma glue_nl_r la lb : la ≠ [] → glue la ("" :: lb) = la ++ lb.
Proof.
  intros Hla. induction la as [|x [|y la] IH]; [done| |].
  - cbn. by rewrite append_nil_r.
  - change (glue (x :: y :: la) ("" :: lb))
      with (x :: glue (y :: la) ("" :: lb)).
    by rewrite IH.
Qed.

Lemma directives_section_split d ls :
  split_char newline (indent +:+ d) = ls →
  split_char newline (directives_section d)
  = "    [[[directives]]]" :: ls ++ [""].
Proof.
  intros Hd.
  change (directives_section d)
    with (("    [[[directives]]]" +:+ nl) +:+ ((indent +:+ d) +:+ nl)).
  rewrite (split_char_app _ (_ +:+ nl) ((indent +:+ d) +:+ nl)).
  rewrite (split_char_app _ (indent +:+ d) nl), Hd.
  rewrite (split_char_app _ "    [[[directives]]]" nl).
  change (split_char newline "    [[[directives]]]")
    with ["    [[[directives]]]"].
  change (split_char newline nl) with [""; ""].
  assert (ls ≠ []) as Hne by (rewrite <- Hd; apply split_char_nonempty).
  rewrite (glue_nl_r ls [""]) by done.
  change (glue ["    [[[directives]]]"] [""; ""])
    with (["    [[[directives]]]"] ++ [""]).
  rewrite glue_nl_l; [done|]. by destruct ls.
Qed.

Lemma one_line_indent l : one_line (indent +:+ l) = one_line l.
Proof. reflexivity. Qed.

Lemma job_submission_renders fs v :
  renders fs v →
  ∃ m d ls,
    job_submission v fs = Ok (m, d) ∧ one_line m = true
    ∧ split_char newline (indent +:+ d) = (λ l, indent +:+ l) <$> ls
    ∧ Forall (λ l, plain l = true) ls.
Proof.
  intros [Hv|(path & text & -> & Htext & Hplain)].
  - exists "background", "", [""].
    rewrite job_submission_background by done. by repeat constructor.
  - destruct (decide (path = "")) as [->|Hne].
    { exists "background", "", [""]. by repeat constructor. }
    exists "slurm", (replace_char newline (nl +:+ "      ") text),
      (split_char newline text).
    rewrite (job_submission_slurm path text) by done.
    split; [done|]. split; [done|]. split; [|done].
    rewrite replace_char_join.
    change (nl +:+ "      ") with (nl +:+ indent).
    rewrite join_indent by apply split_char_nonempty.
    apply split_char_join.
    + pose proof (split_char_nonempty newline text).
      by destruct (split_char newline text).
    + apply Forall_fmap. eapply Forall_impl; [apply one_line_split|].
      intros l Hl. cbn. by rewrite one_line_indent.
Qed.

Ltac template_lines Hdir Hm Hd :=
  unfold head_lines;
  pose proof (split_char_one_line _ Hdir) as Hdir';
  pose proof (split_char_one_line _ Hm) as Hm';
  pose proof (directives_section_split _ _ Hd) as Hd';
  pose proof (directives_section_split "" [indent] eq_refl) as He';
  unfold real_template, wrf_template, obsproc_template;
  rewrite !split_char_app, !Hdir', !Hm', !Hd', !He';
  match goal with
  | |- context [?ls ++ [""]] => is_var ls; generalize (ls ++ [""]); intros tl
  end;
  repeat split; [vm_compute; reflexivity..|];
  eexists; vm_compute; reflexivity.

Lemma real_template_lines dir m d ls :
  one_line dir = true → one_line m = true →
  split_char newline (indent +:+ d) = ls →
  split_char newline (real_template dir m d)
  = head_lines (real_template dir m "") ++ ls ++ [""]
  ∧ blocks_go (head_lines (real_template dir m "")) false = ["wrf_real"]
  ∧ script_state (head_lines (real_template dir m "")) false = false
  ∧ ∃ tl, head_lines (real_template dir m "") = "" :: tl.
Proof. intros Hdir Hm Hd. template_lines Hdir Hm Hd. Qed.

Lemma wrf_template_lines dir m d ls :
  one_line dir = true → one_line m = true →
  split_char newline (indent +:+ d) = ls →
  split_char newline (wrf_template dir m d)
  = head_lines (wrf_template dir m "") ++ ls ++ [""]
  ∧ blocks_go (head_lines (wrf_template dir m "")) false = ["wrf_run"]
  ∧ script_state (head_lines (wrf_template dir m "")) false = false
  ∧ ∃ tl, head_lines (wrf_template dir m "") = "" :: tl.
Proof. intros Hdir Hm Hd. template_lines Hdir Hm Hd. Qed.

Lemma obsproc_template_lines dir m d ls :
  one_line dir = true → one_line m = true →
  split_char newline (indent +:+ d) = ls →
  split_char newline (obsproc_template dir m d)
  = head_lines (obsproc_template dir m "") ++ ls ++ [""]
  ∧ blocks_go (head_lines (obsproc_template dir m "")) false = ["obsproc_run"]
  ∧ script_state (head_lines (obsproc_template dir m "")) false = false
  ∧ ∃ tl, head_lines (obsproc_template dir m "") = "" :: tl.
Proof. intros Hdir Hm Hd. template_lines Hdir Hm Hd. Qed.

Lemma one_line_path_join dir name :
  one_line dir = true → one_line name = true →
  one_line (os_path_join dir [name]) = true.
Proof.
  intros Hdir Hname. unfold os_path_join, path_join2. cbn [foldl].
  destruct (String.prefix "/" name); [done|].
  destruct (String.eqb dir "" || ends_with_slash dir);
    rewrite ?one_line_app, Hdir, Hname; done.
Qed.

(** The names a segment of lines adds, when it leaves no script open. *)
Lemma blocks_go_segment seg rest names :
  blocks_go seg false = names → script_state seg false = false →
  blocks_go (seg ++ rest) false = names ++ blocks_go rest false.
Proof. intros Hb Hs. by rewrite blocks_go_app, Hb, Hs. Qed.

Lemma runtime_lines_blocks dir1 dir2 dir3 m1 m2 m3 d1 d2 d3 ls1 ls2 ls3 :
  one_line dir1 = true → one_line dir2 = true → one_line dir3 = true →
  one_line m1 = true → one_line m2 = true → one_line m3 = true →
  split_char newline (indent +:+ d1) = (λ l, indent +:+ l) <$> ls1 →
  split_char newline (indent +:+ d2) = (λ l, indent +:+ l) <$> ls2 →
  split_char newline (indent +:+ d3) = (λ l, indent +:+ l) <$> ls3 →
  Forall (λ l, plain l = true) ls1 → Forall (λ l, plain l = true) ls2 →
  Forall (λ l, plain l = true) ls3 →
  blocks (_runtime_base +:+ _runtime_init +:+ real_template dir1 m1 d1
          +:+ wrf_template dir2 m2 d2 +:+ obsproc_template dir3 m3 d3
          +:+ _runtime_wrfda)
  = ["root"; "init"; "wrf_real"; "wrf_run"; "obsproc_run"; "wrfda"].
Proof.
  intros Hdir1 Hdir2 Hdir3 Hm1 Hm2 Hm3 Hd1 Hd2 Hd3 Hp1 Hp2 Hp3.
  destruct (real_template_lines dir1 m1 d1 _ Hdir1 Hm1 Hd1)
    as (Hr & Hrb & Hrs & tr & Hrt).
  destruct (wrf_template_lines dir2 m2 d2 _ Hdir2 Hm2 Hd2)
    as (Hw & Hwb & Hws & tw & Hwt).
  destruct (obsproc_template_lines dir3 m3 d3 _ Hdir3 Hm3 Hd3)
    as (Ho & Hob & Hos & to & Hot).
  destruct (blocks_go_plain ls1 Hp1) as [Hb1 Hs1].
  destruct (blocks_go_plain ls2 Hp2) as [Hb2 Hs2].
  destruct (blocks_go_plain ls3 Hp3) as [Hb3 Hs3].
  unfold blocks. rewrite !split_char_app, Hr, Hw, Ho.
  rewrite Hrt, Hwt, Hot in *.
  set (base := take 4 (split_char newline _runtime_base)).
  set (init := take 6 (split_char newline _runtime_init)).
  change (split_char newline _runtime_base) with (base ++ [""]).
  change (split_char newline _runtime_init) with (init ++ [""]).
  rewrite !(app_assoc _ _ [""]).
  rewrite (glue_nl_l _ (split_char newline _runtime_wrfda)) by done.
  rewrite (glue_nl_l (("" :: tw) ++ _)) by done.
  rewrite (glue_nl_l (("" :: tr) ++ _)) by done.
  rewrite (glue_nl_l init) by done.
  rewrite (glue_nl_l base) by done.
  rewrite (blocks_go_segment base _ ["root"]) by done.
  rewrite (blocks_go_segment init _ ["init"]) by done.
  rewrite <- !app_assoc.
  rewrite (blocks_go_segment _ _ _ Hrb Hrs).
  rewrite (blocks_go_segment _ _ _ Hb1 Hs1).
  rewrite (blocks_go_segment _ _ _ Hwb Hws).
  rewrite (blocks_go_segment _ _ _ Hb2 Hs2).
  rewrite (blocks_go_segment _ _ _ Hob Hos).
  rewrite (blocks_go_segment _ _ _ Hb3 Hs3).
  reflexivity.
Qed.

(** X23. The runtime section against the graphs.  Whenever the two
    directories are one line each and every batch script setting is unset,
    empty, or the path of a script whose lines open neither a block nor a
    script, [_runtime] renders, and the blocks of its text are [root],
    [init], [wrf_real], [wrf_run], [obsproc_run] and [wrfda], in this
    order.  So the tasks [wrf_init] and [obsproc_init] of both graphs of
    [_scheduling], and [copy_urb] of the repeating one, have no block of
    their own, and the block [init], which holds the two initialisation
    commands, is a task of neither graph. *)
Theorem runtime_blocks cfg fs :
  one_line (wrf_run_dir cfg) = true → one_line (work_dir cfg) = true →
  Forall (renders fs) (settings cfg) →
  ∃ text,
    _runtime cfg fs = Ok text
    ∧ blocks text
      = ["root"; "init"; "wrf_real"; "wrf_run"; "obsproc_run"; "wrfda"]
    ∧ undefined_tasks (blocks text) <$> (cycles (_scheduling cfg)).*2
      = [["wrf_init"; "obsproc_init"];
         ["copy_urb"; "wrf_init"; "obsproc_init"]]
    ∧ Forall (λ body, "init" ∉ graph_nodes body)
        (cycles (_scheduling cfg)).*2.
Proof.
  intros Hrun Hwork Hall. unfold settings in Hall.
  apply Forall_cons in Hall as [Hr Hall].
  apply Forall_cons in Hall as [Hw Hall].
  apply Forall_cons in Hall as [Ho _].
  destruct (job_submission_renders _ _ Hr) as (m1 & d1 & ls1 & Hj1 & ? & ? & ?).
  destruct (job_submission_renders _ _ Hw) as (m2 & d2 & ls2 & Hj2 & ? & ? & ?).
  destruct (job_submission_renders _ _ Ho) as (m3 & d3 & ls3 & Hj3 & ? & ? & ?).
  unfold _runtime, _runtime_real, _runtime_wrf, _runtime_obsproc.
  rewrite Hj1, Hj2, Hj3. cbn [mbind result_bind].
  eexists. split; [reflexivity|].
  rewrite (runtime_lines_blocks _ _ _ _ _ _ _ _ _ ls1 ls2 ls3)
    by (try done; by apply one_line_path_join).
  split; [reflexivity|]. rewrite scheduling_cycles.
  split; [vm_compute; reflexivity|].
  repeat constructor; intros Hin; apply list_elem_of_In in Hin;
    vm_compute in Hin;
    repeat (destruct Hin as [Heq|Hin]; [discriminate Heq|]); exact Hin.
Qed.

Lemma runtime_blocks_example :
  ∃ text,
    _runtime example_config example_scripts = Ok text
    ∧ blocks text
      = ["root"; "init"; "wrf_real"; "wrf_run"; "obsproc_run"; "wrfda"]
    ∧ undefined_tasks (blocks text)
        <$> (cycles (_scheduling example_config)).*2
      = [["wrf_init"; "obsproc_init"];
         ["copy_urb"; "wrf_init"; "obsproc_init"]]
    ∧ Forall (λ body, "init" ∉ graph_nodes body)
        (cycles (_scheduling example_config)).*2.
Proof.
  apply runtime_blocks; [reflexivity | reflexivity |].
  unfold settings. rewrite !Forall_cons. split; [|split; [|split]].
  - right. exists "/suite/slurm_real.sh", "#SBATCH -n 24
#SBATCH -t 60".
    split; [reflexivity|]. split; [reflexivity|]. by repeat constructor.
  - by left.
  - by left.
  - constructor.
Defined.




End DocumentProps.

(** ** The runtime blocks of the executables *)

Module BlockProps.
Import Wrfpy Cases SuiteCases BlockCases SuiteProps DocumentProps WrfpyConfig.

Lemma suffix_tail_self (l : list string) : tail l `suffix_of` l.
Proof. destruct l; [done|]. by apply suffix_cons_r. Qed.

Lemma suffix_tail_glue (la lb : list string) :
  tail lb `suffix_of` tail (glue la lb).
Proof.
  induction la as [|x [|y la] IH]; [done| |].
  - destruct lb as [|h t]; [apply suffix_nil | done].
  - change (glue (x :: y :: la) lb) with (x :: glue (y :: la) lb).
    cbn [tail]. etrans; [apply IH|]. apply suffix_tail_self.
Qed.

(** The end of each template, whatever comes before it. *)
Lemma submission_tail m d ls :
  one_line m = true →
  split_char newline ("      " +:+ d) = ls →
  glue (split_char newline "
      CYLC_TASK_WORK_DIR = $WORKDIR
    [[[job submission]]]
      method = ")
    (glue (split_char newline m)
       (glue (split_char newline "
") (split_char newline (directives_section d))))
  = "" :: "      CYLC_TASK_WORK_DIR = $WORKDIR" :: submission_lines m ls.
Proof.
  intros Hm Hd.
  rewrite (split_char_one_line m Hm), (directives_section_split d ls Hd).
  cbn. by rewrite append_nil_r.
Qed.

Ltac block_lines Hm Hd :=
  unfold lines, real_template, wrf_template, obsproc_template;
  rewrite !split_char_app, (submission_tail _ _ _ Hm Hd);
  split;
  [ reflexivity
  | etrans; [|apply suffix_tail_self];
    repeat (etrans; [|apply suffix_tail_glue]);
    cbn [tail]; by apply suffix_cons_r ].

Lemma real_template_block dir m d ls :
  one_line m = true → split_char newline ("      " +:+ d) = ls →
  take 2 (lines (real_template dir m d)) = [""; "  [[wrf_real]]"]
  ∧ submission_lines m ls `suffix_of` lines (real_template dir m d).
Proof. intros Hm Hd. block_lines Hm Hd. Qed.

Lemma wrf_template_block dir m d ls :
  one_line m = true → split_char newline ("      " +:+ d) = ls →
  take 2 (lines (wrf_template dir m d)) = [""; "  [[wrf_run]]"]
  ∧ submission_lines m ls `suffix_of` lines (wrf_template dir m d).
Proof. intros Hm Hd. block_lines Hm Hd. Qed.

Lemma obsproc_template_block dir m d ls :
  one_line m = true → split_char newline ("      " +:+ d) = ls →
  take 2 (lines (obsproc_template dir m d)) = [""; "  [[obsproc_run]]"]
  ∧ submission_lines m ls `suffix_of` lines (obsproc_template dir m d).
Proof. intros Hm Hd. block_lines Hm Hd. Qed.

Lemma directives_lines text :
  split_char newline
    ("      " +:+ replace_char newline (nl +:+ "      ") text)
  = (λ l, "      " +:+ l) <$> split_char newline text.
Proof.
  rewrite replace_char_join.
  rewrite (join_indent "      ") by apply split_char_nonempty.
  apply split_char_join.
  - pose proof (split_char_nonempty newline text).
    by destruct (split_char newline text).
  - apply Forall_fmap. eapply Forall_impl; [apply one_line_split|].
    intros l Hl. exact Hl.
Qed.

Lemma job_submission_unreadable path (scripts : gmap string string) :
  path ≠ "" → scripts !! path = None →
  job_submission (PyStr path) scripts
  = Raise (IOError "No such file or directory").
Proof.
  intros Hne Hnone. unfold job_submission, truthy, open_read.
  apply String.eqb_neq in Hne. by rewrite Hne, Hnone.
Qed.

(** What holds of a function that looks up its setting under [key],
    renders the submission, looks up its directory under [dirkey] and
    fills the template. *)
Lemma runtime_block_cases key dirkey header
    (template : string → string → string → string) (dir_of : string → string)
    cfg scripts :
  (∀ dir m d ls,
     one_line m = true → split_char newline ("      " +:+ d) = ls →
     take 2 (lines (template dir m d)) = [""; header]
     ∧ submission_lines m ls `suffix_of` lines (template dir m d)) →
  let render :=
    v ← config_value "options_slurm" (options_slurm cfg) key;
    '(method, directives) ← job_submission v scripts;
    dir ← config_value "filesystem" (filesystem cfg) dirkey;
    Ok (template (dir_of dir) method directives) in
  (options_slurm cfg = None → render = Raise (KeyError "options_slurm"))
  ∧ (∀ opts, options_slurm cfg = Some opts → opts !! key = None →
       render = Raise (KeyError key))
  ∧ (∀ opts v, options_slurm cfg = Some opts → opts !! key = Some v →
       (∀ path, v = PyStr path → path ≠ "" → scripts !! path = None →
          ∃ msg, render = Raise (IOError msg))
       ∧ (∀ fsys dir,
            filesystem cfg = Some fsys → fsys !! dirkey = Some dir →
            (truthy v = false →
             ∃ block,
               render = Ok block
               ∧ take 2 (lines block) = [""; header]
               ∧ submission_lines "background" ["      "]
                 `suffix_of` lines block)
            ∧ (∀ path text,
                 v = PyStr path → path ≠ "" → scripts !! path = Some text →
                 ∃ block,
                   render = Ok block
                   ∧ take 2 (lines block) = [""; header]
                   ∧ submission_lines "slurm"
                       ((λ l, "      " +:+ l) <$> split_char newline text)
                     `suffix_of` lines block))
       ∧ (∀ block,
            render = Ok block →
            ∃ directives,
              submission_lines (if truthy v then "slurm" else "background")
                directives `suffix_of` lines block)).
Proof.
  intros Htemplate render. unfold render, config_value, getitem.
  split; [by intros ->|]. split.
  { intros opts -> Hkey. by rewrite Hkey. }
  intros opts v -> Hkey. rewrite Hkey. cbn [mbind result_bind].
  split; [|split].
  - intros path -> Hne Hnone. rewrite job_submission_unreadable by done.
    by eexists.
  - intros fsys dir -> Hdir. rewrite Hdir. split.
    + intros Hv. rewrite job_submission_background by done.
      cbn [mbind result_bind]. eexists. split; [done|].
      by apply Htemplate.
    + intros path text -> Hne Htext.
      rewrite (job_submission_slurm path text) by done.
      cbn [mbind result_bind]. eexists. split; [done|].
      apply Htemplate; [done | apply directives_lines].
  - intros block.
    destruct (job_submission v scripts) as [[m d]|err] eqn:Hjob; [|done].
    cbn [mbind result_bind].
    destruct (filesystem cfg) as [fsys|]; [|done].
    destruct (fsys !! dirkey) as [dir|]; [|done].
    cbn [mbind result_bind]. intros [= <-].
    exists (split_char newline ("      " +:+ d)).
    rewrite <- (job_submission_method _ _ _ _ Hjob).
    apply Htemplate; [|done].
    rewrite (job_submission_method _ _ _ _ Hjob). by destruct (truthy v).
Qed.

(** The functions of [Wrfpy] are these, once the look-ups have given the
    values of the configuration [c]. *)
Lemma runtime_blocks_loaded (cfg : suite_config) scripts opts fsys (c : config) :
  options_slurm cfg = Some opts → filesystem cfg = Some fsys →
  opts !! "slurm_real.exe" = Some (slurm_real_exe c) →
  opts !! "slurm_wrf.exe" = Some (slurm_wrf_exe c) →
  opts !! "slurm_obsproc.exe" = Some (slurm_obsproc_exe c) →
  fsys !! "wrf_run_dir" = Some (wrf_run_dir c) →
  fsys !! "work_dir" = Some (work_dir c) →
  _runtime_real cfg scripts = Wrfpy._runtime_real c scripts
  ∧ _runtime_wrf cfg scripts = Wrfpy._runtime_wrf c scripts
  ∧ _runtime_obsproc cfg scripts = Wrfpy._runtime_obsproc c scripts.
Proof.
  intros Hopts Hfs Hr Hw Ho Hrun Hwork.
  unfold _runtime_real, _runtime_wrf, _runtime_obsproc, Wrfpy._runtime_real,
    Wrfpy._runtime_wrf, Wrfpy._runtime_obsproc, config_value, getitem.
  rewrite Hopts, Hfs, Hr, Hw, Ho, Hrun, Hwork. cbn [mbind result_bind].
  split; [|split].
  - by destruct (job_submission (slurm_real_exe c) scripts) as [[m d]|].
  - by destruct (job_submission (slurm_wrf_exe c) scripts) as [[m d]|].
  - by destruct (job_submission (slurm_obsproc_exe c) scripts) as [[m d]|].
Qed.

(** C9 as stated fails, on both sides.  A batch script setting that is
    missing is an error: without the key the block is not rendered, a
    [KeyError] is raised.  And a configured, non-empty path does not by
    itself give a block with method slurm: when the script is not there,
    the [IOError] of [open] is raised. *)
Lemma runtime_block_claim_fails :
  ¬ (∀ cfg scripts fsys dir,
       filesystem cfg = Some fsys → fsys !! "wrf_run_dir" = Some dir →
       ¬ (∃ opts path,
            options_slurm cfg = Some opts
            ∧ opts !! "slurm_real.exe" = Some (PyStr path) ∧ path ≠ "") →
       ∃ block,
         _runtime_real cfg scripts = Ok block
         ∧ submission_lines "background" ["      "] `suffix_of` lines block)
  ∧ ¬ (∀ cfg scripts fsys dir opts path,
         filesystem cfg = Some fsys → fsys !! "wrf_run_dir" = Some dir →
         options_slurm cfg = Some opts →
         opts !! "slurm_real.exe" = Some (PyStr path) → path ≠ "" →
         ∃ block directives,
           _runtime_real cfg scripts = Ok block
           ∧ submission_lines "slurm" directives `suffix_of` lines block).
Proof.
  split.
  - intros H.
    destruct (H no_key_config ∅
                {[ "wrf_run_dir" := "/work/run"; "work_dir" := "/work" ]}
                "/work/run") as (block & Hblock & _).
    + reflexivity.
    + vm_compute. reflexivity.
    + intros (opts & path & [= <-] & Hkey & _).
      by rewrite lookup_empty in Hkey.
    + vm_compute in Hblock. discriminate Hblock.
  - intros H.
    destruct (H no_script_config ∅
                {[ "wrf_run_dir" := "/work/run"; "work_dir" := "/work" ]}
                "/work/run"
                {[ "slurm_real.exe" := PyStr "/suite/missing.sh" ]}
                "/suite/missing.sh") as (block & directives & Hblock & _).
    + reflexivity.
    + vm_compute. reflexivity.
    + reflexivity.
    + vm_compute. reflexivity.
    + discriminate.
    + vm_compute in Hblock. discriminate Hblock.
Qed.

(** C9, amended. For each of the three executable tasks, with [v] the
    value of its batch script setting in [options_slurm] and the task's
    directory configured.  A [v] that is not truthy (null, an empty path)
    gives the task's block, whose last lines are the method background and
    an empty directives line: no error.  A non-empty path to a script that
    is there gives the task's block, whose last lines are the method slurm
    and the lines of the script, each behind the six spaces of the
    template.  Whenever a block is rendered, its method is slurm exactly
    when [v] is truthy.  Without the section [options_slurm] or without
    the key of the task in it, a [KeyError] is raised; with a non-empty
    path to a script that is not there, an [IOError]. *)
Theorem runtime_block_submission :
  Forall (λ '(key, dirkey, header, render),
    ∀ (cfg : suite_config) (scripts : gmap string string),
      (options_slurm cfg = None →
       render cfg scripts = Raise (KeyError "options_slurm"))
      ∧ (∀ opts, options_slurm cfg = Some opts → opts !! key = None →
           render cfg scripts = Raise (KeyError key))
      ∧ (∀ opts v, options_slurm cfg = Some opts → opts !! key = Some v →
           (∀ path, v = PyStr path → path ≠ "" → scripts !! path = None →
              ∃ msg, render cfg scripts = Raise (IOError msg))
           ∧ (∀ fsys dir,
                filesystem cfg = Some fsys → fsys !! dirkey = Some dir →
                (truthy v = false →
                 ∃ block,
                   render cfg scripts = Ok block
                   ∧ take 2 (lines block) = [""; header]
                   ∧ submission_lines "background" ["      "]
                     `suffix_of` lines block)
                ∧ (∀ path text,
                     v = PyStr path → path ≠ "" →
                     scripts !! path = Some text →
                     ∃ block,
                       render cfg scripts = Ok block
                       ∧ take 2 (lines block) = [""; header]
                       ∧ submission_lines "slurm"
                           ((λ l, "      " +:+ l) <$> split_char newline text)
                         `suffix_of` lines block))
           ∧ (∀ block,
                render cfg scripts = Ok block →
                ∃ directives,
                  submission_lines
                    (if truthy v then "slurm" else "background") directives
                  `suffix_of` lines block)))
    executable_tasks.
Proof.
  unfold executable_tasks. repeat apply Forall_cons_2; [..|apply Forall_nil_2];
    intros cfg scripts.
  - apply (runtime_block_cases "slurm_real.exe" "wrf_run_dir" "  [[wrf_real]]"
             real_template (λ dir, dir) cfg scripts).
    intros dir. apply real_template_block.
  - apply (runtime_block_cases "slurm_wrf.exe" "wrf_run_dir" "  [[wrf_run]]"
             wrf_template (λ dir, dir) cfg scripts).
    intros dir. apply wrf_template_block.
  - apply (runtime_block_cases "slurm_obsproc.exe" "work_dir"
             "  [[obsproc_run]]" obsproc_template
             (λ dir, os_path_join dir ["obsproc"]) cfg scripts).
    intros dir. apply obsproc_template_block.
Qed.

(** The three settings of the example: a batch script for [real.exe], an
    empty path for [wrf.exe], null for [obsproc.exe]. *)
Lemma runtime_block_submission_example :
  (∃ block,
     _runtime_real example_suite_config example_scripts = Ok block
     ∧ take 2 (lines block) = [""; "  [[wrf_real]]"]
     ∧ ["    [[[job submission]]]"; "      method = slurm";
        "    [[[directives]]]"; "      #SBATCH -n 24"; "      #SBATCH -t 60";
        ""] `suffix_of` lines block)
  ∧ (∃ block,
       _runtime_wrf example_suite_config example_scripts = Ok block
       ∧ take 2 (lines block) = [""; "  [[wrf_run]]"]
       ∧ ["    [[[job submission]]]"; "      method = background";
          "    [[[directives]]]"; "      "; ""] `suffix_of` lines block)
  ∧ (∃ block,
       _runtime_obsproc example_suite_config example_scripts = Ok block
       ∧ take 2 (lines block) = [""; "  [[obsproc_run]]"]
       ∧ ["    [[[job submission]]]"; "      method = background";
          "    [[[directives]]]"; "      "; ""] `suffix_of` lines block)
  ∧ _runtime_real no_key_config example_scripts
    = Raise (KeyError "slurm_real.exe").
Proof.
  pose proof runtime_block_submission as Hall. unfold executable_tasks in Hall.
  apply Forall_cons in Hall as [Hreal Hall].
  apply Forall_cons in Hall as [Hwrf Hall].
  apply Forall_cons in Hall as [Hobs _].
  split; [|split; [|split]].
  - destruct (Hreal example_suite_config example_scripts) as (_ & _ & H).
    destruct (H _ (PyStr "/suite/slurm_real.sh") eq_refl) as (_ & Hdir & _);
      [vm_compute; reflexivity|].
    destruct (Hdir _ "/work/run" eq_refl) as [_ Hslurm];
      [vm_compute; reflexivity|].
    apply (Hslurm "/suite/slurm_real.sh" "#SBATCH -n 24
#SBATCH -t 60"); [reflexivity | discriminate | vm_compute; reflexivity].
  - destruct (Hwrf example_suite_config example_scripts) as (_ & _ & H).
    destruct (H _ (PyStr "") eq_refl) as (_ & Hdir & _);
      [vm_compute; reflexivity|].
    destruct (Hdir _ "/work/run" eq_refl) as [Hback _];
      [vm_compute; reflexivity|].
    apply Hback. reflexivity.
  - destruct (Hobs example_suite_config example_scripts) as (_ & _ & H).
    destruct (H _ PyNone eq_refl) as (_ & Hdir & _);
      [vm_compute; reflexivity|].
    destruct (Hdir _ "/work" eq_refl) as [Hback _];
      [vm_compute; reflexivity|].
    apply Hback. reflexivity.
  - destruct (Hreal no_key_config example_scripts) as (_ & Hkey & _).
    apply (Hkey ∅); reflexivity.
Defined.

End BlockProps.
